(** * Watchdog supervision and recovery (esp-idf/minions/watchdog)

    A shallow embedding of the two example programs of the repository,
    [main.c] (one monitored task) and [watchdog_multi_task.c] (two monitored
    tasks and a message handler that scrapes the failed task's name from the
    watchdog's report), and the properties of their specification.

    The C globals of each program form a record; every C function becomes a
    program of a small monad that threads this record, collects the calls
    made to the platform (FreeRTOS, the GPIO driver, the task watchdog, the
    logger) as a trace of events, and can stop in a blocking call or in the
    abort of [ESP_ERROR_CHECK].  What the platform answers (the error code
    of a call, the lines of a report, whether a wake unblocked a task of
    higher priority) is a parameter of the function that asks. *)

From Stdlib Require Import List String Ascii ZArith Bool Arith Lia.
Import ListNotations.

Local Open Scope string_scope.

(** ** The C library's string functions *)

Module LibC.

(** The terminator of a C string. *)
Definition NUL : ascii := Ascii.zero.

Definition is_nul (c : ascii) : bool := Ascii.eqb c NUL.

(** A [string] stands for the characters in memory from a pointer on; the
    C string at that pointer is what comes before the first NUL (the end of
    the modelled region counts as a terminator). *)
Fixpoint c_str (mem : string) : string :=
  match mem with
  | EmptyString => EmptyString
  | String c rest => if is_nul c then EmptyString else String c (c_str rest)
  end.

Definition strlen (mem : string) : nat := String.length (c_str mem).

Fixpoint starts_with (needle hay : string) : bool :=
  match needle, hay with
  | EmptyString, _ => true
  | String _ _, EmptyString => false
  | String a needle', String b hay' => Ascii.eqb a b && starts_with needle' hay'
  end.

Fixpoint search (needle hay : string) : option nat :=
  if starts_with needle hay then Some 0
  else match hay with
       | EmptyString => None
       | String _ hay' => option_map S (search needle hay')
       end.

(** [strstr haystack needle]: the offset of the first occurrence, [None]
    for the null pointer. *)
Definition strstr (haystack needle : string) : option nat :=
  search (c_str needle) (c_str haystack).

Definition uchar (c : ascii) : Z := Z.of_N (N_of_ascii c).

Fixpoint strcmp (a b : string) : Z :=
  match a, b with
  | EmptyString, EmptyString => 0
  | EmptyString, String y _ => 0 - uchar y
  | String x _, EmptyString => uchar x - 0
  | String x a', String y b' =>
      if Ascii.eqb x y then (if is_nul x then 0 else strcmp a' b')
      else uchar x - uchar y
  end.

(** [buf[i] = c].  A write at or past the end of the array lengthens the
    modelled region, so that an overflow shows as a length above the
    array's size. *)
Fixpoint store (i : nat) (c : ascii) (buf : string) : string :=
  match i, buf with
  | O, EmptyString => String c EmptyString
  | O, String _ rest => String c rest
  | S i', EmptyString => String NUL (store i' c EmptyString)
  | S i', String b rest => String b (store i' c rest)
  end.

Definition tail (buf : string) : string :=
  match buf with EmptyString => EmptyString | String _ rest => rest end.

(** [strncpy(dest, src, n)] writes exactly [n] characters: those of the C
    string at [src], then NULs.  Like [store] it lengthens a region that is
    too short. *)
Fixpoint strncpy (dest src : string) (n : nat) : string :=
  match n with
  | O => dest
  | S n' =>
      match src with
      | EmptyString => String NUL (strncpy (tail dest) EmptyString n')
      | String c src' =>
          if is_nul c then String NUL (strncpy (tail dest) EmptyString n')
          else String c (strncpy (tail dest) src' n')
      end
  end.

(** [buf[i]], NUL past the end of the region. *)
Definition load (i : nat) (buf : string) : ascii :=
  match String.get i buf with Some c => c | None => NUL end.

End LibC.

Import LibC.

(** ** Calls to the platform *)

Inductive log_level := LOG_ERROR | LOG_WARN | LOG_INFO.

(** [esp_task_wdt_config_t] *)
Record esp_task_wdt_config_t := {
  timeout_ms : Z;
  idle_core_mask : Z;
  trigger_panic : bool
}.

Inductive gpio_mode_t := GPIO_MODE_OUTPUT.
Inductive gpio_int_type_t := GPIO_INTR_DISABLE.

(** [gpio_config_t] *)
Record gpio_config_t := {
  pin_bit_mask : Z;
  mode : gpio_mode_t;
  pull_up_en : Z;
  pull_down_en : Z;
  intr_type : gpio_int_type_t
}.

Inductive event :=
| Log (lvl : log_level) (fmt : string) (args : list Z)
| EventGroupCreate
| EventGroupSetBitsFromISR (bits : Z)
| YieldFromISR
| TaskCreate (name : string) (stack_depth priority : Z)
| TaskDelayMs (ms : Z)
| GpioConfig (cfg : gpio_config_t)
| GpioSetLevel (pin level : Z)
| TaskWdtInit (cfg : esp_task_wdt_config_t)
| TaskWdtAddUser (name : string)
| TaskWdtResetUser (handle : Z)
| TaskWdtPrintTriggeredTasks.

Definition trace := list event.

(** ** Programs over the globals *)

Inductive result (St A : Type) :=
| Done (a : A) (s : St) (tr : trace)
| Blocked
| Aborted.

Arguments Done {St A} a s tr.
Arguments Blocked {St A}.
Arguments Aborted {St A}.

Definition Prog (St A : Type) : Type := St -> result St A.

Definition ret {St A} (a : A) : Prog St A := fun s => Done a s [].

Definition bind {St A B} (p : Prog St A) (k : A -> Prog St B) : Prog St B :=
  fun s =>
    match p s with
    | Done a s1 tr1 =>
        match k a s1 with
        | Done b s2 tr2 => Done b s2 (tr1 ++ tr2)%list
        | Blocked => Blocked
        | Aborted => Aborted
        end
    | Blocked => Blocked
    | Aborted => Aborted
    end.

Declare Scope prog_scope.
Delimit Scope prog_scope with prog.
Notation "x <- p ;; k" := (bind p (fun x => k))
  (at level 61, p at next level, right associativity) : prog_scope.
Notation "p ;; k" := (bind p (fun _ => k))
  (at level 61, right associativity) : prog_scope.
Local Open Scope prog_scope.

Definition get {St A} (field : St -> A) : Prog St A := fun s => Done (field s) s [].
Definition modify {St} (f : St -> St) : Prog St unit := fun s => Done tt (f s) [].
Definition emit {St} (e : event) : Prog St unit := fun s => Done tt s [e].
Definition abort {St A} : Prog St A := fun _ => Aborted.

Definition when {St} (c : bool) (p : Prog St unit) : Prog St unit :=
  if c then p else ret tt.

(** [for (int i = 0; i < n; i++) body] with a body that does not use [i]. *)
Fixpoint repeat_times {St} (n : nat) (body : Prog St unit) : Prog St unit :=
  match n with
  | O => ret tt
  | S n' => body ;; repeat_times n' body
  end.

(** [for each x in xs: f x] *)
Fixpoint for_each {St A} (f : A -> Prog St unit) (xs : list A) : Prog St unit :=
  match xs with
  | [] => ret tt
  | x :: xs' => f x ;; for_each f xs'
  end.

(** *** Shared constants and platform calls *)

Definition ESP_OK : Z := 0.
Definition BIT0 : Z := 1.
Definition GPIO_NUM_2 : Z := 2.
Definition GPIO_NUM_15 : Z := 15.

Definition WATCHDOG_TIMEOUT_MS : Z := 5000.
Definition RECOVERY_ACTIVE_BIT : Z := BIT0.

Definition ESP_LOGE {St} (fmt : string) (args : list Z) : Prog St unit :=
  emit (Log LOG_ERROR fmt args).
Definition ESP_LOGW {St} (fmt : string) (args : list Z) : Prog St unit :=
  emit (Log LOG_WARN fmt args).
Definition ESP_LOGI {St} (fmt : string) (args : list Z) : Prog St unit :=
  emit (Log LOG_INFO fmt args).

(** [ESP_ERROR_CHECK(x)]: abort unless the call returned [ESP_OK]. *)
Definition ESP_ERROR_CHECK {St} (err : Z) : Prog St unit :=
  if Z.eqb err ESP_OK then ret tt else abort.

(** [vTaskDelay(pdMS_TO_TICKS(ms))] *)
Definition vTaskDelay_ms {St} (ms : Z) : Prog St unit := emit (TaskDelayMs ms).

Definition gpio_set_level {St} (pin level : Z) : Prog St unit :=
  emit (GpioSetLevel pin level).

(** The bits of an event group after [xEventGroupSetBitsFromISR]. *)
Definition set_bits (group bits : Z) : Z := Z.lor group bits.

(** [xEventGroupWaitBits] on the bits of a group: [None] while the caller
    stays blocked, otherwise the value returned (the bits before any
    clearing) and the bits left in the group. *)
Definition wait_bits (group bitsToWaitFor : Z) (clearOnExit waitForAll : bool)
  : option (Z * Z) :=
  let seen := Z.land group bitsToWaitFor in
  let satisfied := if waitForAll then Z.eqb seen bitsToWaitFor
                   else negb (Z.eqb seen 0) in
  if satisfied
  then Some (group, if clearOnExit then Z.ldiff group bitsToWaitFor else group)
  else None.

(** [int counter; counter++] *)
Definition int_wrap (z : Z) : Z := (z + 2147483648) mod 4294967296 - 2147483648.

(** ** watchdog_multi_task.c *)

Module MultiTask.

Definition STATUS_LED : Z := GPIO_NUM_2.
Definition STATUS_LED_2 : Z := GPIO_NUM_15.
Definition MAX_TASK_NAME_LEN : nat := 32.

(** The globals of the file.  [event_group] is [None] for the null handle
    and otherwise holds the bits of the created group; the two watchdog
    user handles are opaque numbers. *)
Record machine := {
  event_group : option Z;
  twdt_user_handle : Z;
  twdt_user_2_handle : Z;
  g_watchdog_timeout_occurred : bool;
  failed_task_name : string;          (* char [MAX_TASK_NAME_LEN] *)
  capturing_task_name : bool;
  task_name_captured : bool
}.

(** The globals as the C runtime initialises them. *)
Definition initial : machine := {|
  event_group := None;
  twdt_user_handle := 0;
  twdt_user_2_handle := 0;
  g_watchdog_timeout_occurred := false;
  failed_task_name := LibC.strncpy EmptyString EmptyString MAX_TASK_NAME_LEN;
  capturing_task_name := false;
  task_name_captured := false
|}.

Definition set_event_group (v : option Z) (m : machine) : machine :=
  {| event_group := v;
     twdt_user_handle := twdt_user_handle m;
     twdt_user_2_handle := twdt_user_2_handle m;
     g_watchdog_timeout_occurred := g_watchdog_timeout_occurred m;
     failed_task_name := failed_task_name m;
     capturing_task_name := capturing_task_name m;
     task_name_captured := task_name_captured m |}.

Definition set_twdt_user_handle (v : Z) (m : machine) : machine :=
  {| event_group := event_group m;
     twdt_user_handle := v;
     twdt_user_2_handle := twdt_user_2_handle m;
     g_watchdog_timeout_occurred := g_watchdog_timeout_occurred m;
     failed_task_name := failed_task_name m;
     capturing_task_name := capturing_task_name m;
     task_name_captured := task_name_captured m |}.

Definition set_twdt_user_2_handle (v : Z) (m : machine) : machine :=
  {| event_group := event_group m;
     twdt_user_handle := twdt_user_handle m;
     twdt_user_2_handle := v;
     g_watchdog_timeout_occurred := g_watchdog_timeout_occurred m;
     failed_task_name := failed_task_name m;
     capturing_task_name := capturing_task_name m;
     task_name_captured := task_name_captured m |}.

Definition set_g_watchdog_timeout_occurred (v : bool) (m : machine) : machine :=
  {| event_group := event_group m;
     twdt_user_handle := twdt_user_handle m;
     twdt_user_2_handle := twdt_user_2_handle m;
     g_watchdog_timeout_occurred := v;
     failed_task_name := failed_task_name m;
     capturing_task_name := capturing_task_name m;
     task_name_captured := task_name_captured m |}.

Definition set_failed_task_name (v : string) (m : machine) : machine :=
  {| event_group := event_group m;
     twdt_user_handle := twdt_user_handle m;
     twdt_user_2_handle := twdt_user_2_handle m;
     g_watchdog_timeout_occurred := g_watchdog_timeout_occurred m;
     failed_task_name := v;
     capturing_task_name := capturing_task_name m;
     task_name_captured := task_name_captured m |}.

Definition set_capturing_task_name (v : bool) (m : machine) : machine :=
  {| event_group := event_group m;
     twdt_user_handle := twdt_user_handle m;
     twdt_user_2_handle := twdt_user_2_handle m;
     g_watchdog_timeout_occurred := g_watchdog_timeout_occurred m;
     failed_task_name := failed_task_name m;
     capturing_task_name := v;
     task_name_captured := task_name_captured m |}.

Definition set_task_name_captured (v : bool) (m : machine) : machine :=
  {| event_group := event_group m;
     twdt_user_handle := twdt_user_handle m;
     twdt_user_2_handle := twdt_user_2_handle m;
     g_watchdog_timeout_occurred := g_watchdog_timeout_occurred m;
     failed_task_name := failed_task_name m;
     capturing_task_name := capturing_task_name m;
     task_name_captured := v |}.

Definition is_null {A} (p : option A) : bool :=
  match p with None => true | Some _ => false end.

(** [xEventGroupSetBitsFromISR(event_group, bits, &woken)] on a created
    group; [woken] is what the call reports in [xHigherPriorityTaskWoken]. *)
Definition xEventGroupSetBitsFromISR (bits : Z) (woken : bool) : Prog machine bool :=
  emit (EventGroupSetBitsFromISR bits) ;;
  modify (fun m => set_event_group (option_map (fun g => set_bits g bits) (event_group m)) m) ;;
  ret woken.

(** The custom handler the watchdog's interrupt calls on expiry. *)
Definition esp_task_wdt_isr_user_handler (woken : bool) : Prog machine unit :=
  modify (set_g_watchdog_timeout_occurred true) ;;
  eg <- get event_group ;;
  when (negb (is_null eg))
    (xHigherPriorityTaskWoken <- xEventGroupSetBitsFromISR RECOVERY_ACTIVE_BIT woken ;;
     when xHigherPriorityTaskWoken (emit YieldFromISR)).

(** The message handler given to [esp_task_wdt_print_triggered_tasks];
    the early [return] of the first branch is the outer [if]. *)
Definition twdt_msg_handler (msg : string) (m : machine) : machine :=
  if negb (is_null (strstr msg " -")) then
    set_failed_task_name (store 0 NUL (failed_task_name m))
      (set_capturing_task_name true m)
  else
    let m1 :=
      if capturing_task_name m && is_null (strstr msg "(CPU") then
        if Nat.ltb (strlen msg) MAX_TASK_NAME_LEN then
          set_task_name_captured true
            (set_failed_task_name
               (store (MAX_TASK_NAME_LEN - 1) NUL
                  (strncpy (failed_task_name m) msg (MAX_TASK_NAME_LEN - 1)))
               m)
        else m
      else m in
    if negb (is_null (strstr msg "(CPU")) then set_capturing_task_name false m1
    else m1.

(** [esp_task_wdt_print_triggered_tasks(msg_handler, NULL, &failing_cpus)]:
    the watchdog hands the lines of its report to the handler one by one.
    The lines are what the platform answers; the error code and the number
    of failing CPUs the call returns are not used by the caller. *)
Definition esp_task_wdt_print_triggered_tasks
    (msg_handler : string -> machine -> machine) (report : list string)
  : Prog machine unit :=
  emit TaskWdtPrintTriggeredTasks ;;
  for_each (fun msg => modify (msg_handler msg)) report.

Definition init_gpio : Prog machine unit :=
  emit (GpioConfig {| pin_bit_mask := Z.lor (Z.shiftl 1 STATUS_LED) (Z.shiftl 1 STATUS_LED_2);
                      mode := GPIO_MODE_OUTPUT;
                      pull_up_en := 0;
                      pull_down_en := 0;
                      intr_type := GPIO_INTR_DISABLE |}) ;;
  gpio_set_level STATUS_LED 0 ;;
  gpio_set_level STATUS_LED_2 0.

Definition twdt_config : esp_task_wdt_config_t :=
  {| timeout_ms := WATCHDOG_TIMEOUT_MS;
     idle_core_mask := 0;
     trigger_panic := false |}.

(** [err] is what [esp_task_wdt_init] returns. *)
Definition init_watchdog (err : Z) : Prog machine unit :=
  emit (TaskWdtInit twdt_config) ;;
  ESP_ERROR_CHECK err ;;
  ESP_LOGI "TWDT initialized with timeout: %d ms" [WATCHDOG_TIMEOUT_MS].

(** The statements of [test_task] before its loop; [err] and [handle] are
    what [esp_task_wdt_add_user] returns and stores. *)
Definition test_task_register (err handle : Z) : Prog machine unit :=
  emit (TaskWdtAddUser "test_user") ;;
  modify (set_twdt_user_handle handle) ;;
  ESP_ERROR_CHECK err ;;
  ESP_LOGI "Test task registered with TWDT" [].

Definition esp_task_wdt_reset_user (handle : machine -> Z) (err : Z) : Prog machine unit :=
  h <- get handle ;;
  emit (TaskWdtResetUser h) ;;
  ESP_ERROR_CHECK err.

(** One turn of the loop of [test_task], from the value of its local
    [counter] to the next; [err] is what a call of
    [esp_task_wdt_reset_user] returns in this turn. *)
Definition test_task_iteration (err : Z) (counter : Z) : Prog machine Z :=
  let counter := int_wrap (counter + 1) in
  ESP_LOGI "Test task running, counter = %d" [counter] ;;
  counter <-
    (if counter <=? 3 then
       ESP_LOGI "Resetting watchdog timer (%d/3)" [counter] ;;
       esp_task_wdt_reset_user twdt_user_handle err ;;
       ret counter
     else if counter =? 4 then
       ESP_LOGW "Not resetting watchdog - will trigger timeout in %d ms" [WATCHDOG_TIMEOUT_MS] ;;
       ret counter
     else if (10 <? counter) && (counter <? 20) then
       ESP_LOGI "Resuming normal operation, resetting watchdog" [] ;;
       esp_task_wdt_reset_user twdt_user_handle err ;;
       ret counter
     else if (20 <? counter) && (counter <? 30) then
       ESP_LOGI "Not resetting watchdog - will trigger timeout in %d ms" [WATCHDOG_TIMEOUT_MS] ;;
       ret counter
     else if (30 <? counter) && (counter <? 40) then
       ESP_LOGI "Resuming normal operation, resetting watchdog" [] ;;
       esp_task_wdt_reset_user twdt_user_handle err ;;
       ret 0
     else ret counter)%Z ;;
  gpio_set_level STATUS_LED (Z.rem counter 2) ;;
  vTaskDelay_ms 1000 ;;
  ret counter.

Definition test_2_task_register (err handle : Z) : Prog machine unit :=
  emit (TaskWdtAddUser "test_2_user") ;;
  modify (set_twdt_user_2_handle handle) ;;
  ESP_ERROR_CHECK err ;;
  ESP_LOGI "Test task registered with TWDT" [].

Definition test_2_task_iteration (err : Z) (counter : Z) : Prog machine Z :=
  let counter := int_wrap (counter + 1) in
  ESP_LOGI "Test task running, counter_2 = %d" [counter] ;;
  counter <-
    (if counter <=? 3 then
       ESP_LOGI "Resetting watchdog timer (%d/3)" [counter] ;;
       esp_task_wdt_reset_user twdt_user_2_handle err ;;
       ret counter
     else if counter =? 4 then
       ESP_LOGW "Not resetting watchdog - will trigger timeout in %d ms" [WATCHDOG_TIMEOUT_MS] ;;
       ret counter
     else if (10 <? counter) && (counter <? 20) then
       ESP_LOGI "Resuming normal operation, resetting watchdog" [] ;;
       esp_task_wdt_reset_user twdt_user_2_handle err ;;
       ret counter
     else if (20 <? counter) && (counter <? 30) then
       ESP_LOGI "Not resetting watchdog - will trigger timeout in %d ms" [WATCHDOG_TIMEOUT_MS] ;;
       ret counter
     else if (30 <? counter) && (counter <? 40) then
       ESP_LOGI "Resuming normal operation, resetting watchdog" [] ;;
       esp_task_wdt_reset_user twdt_user_2_handle err ;;
       ret 0
     else ret counter)%Z ;;
  gpio_set_level STATUS_LED_2 (Z.rem counter 2) ;;
  vTaskDelay_ms 1500 ;;
  ret counter.

(** [xEventGroupWaitBits(event_group, bits, clearOnExit, waitForAll,
    portMAX_DELAY)]: the task stays blocked until the wait is satisfied.
    FreeRTOS asserts that the handle is not null. *)
Definition xEventGroupWaitBits (bits : Z) (clearOnExit waitForAll : bool)
  : Prog machine Z :=
  fun m =>
    match event_group m with
    | None => Aborted
    | Some g =>
        match wait_bits g bits clearOnExit waitForAll with
        | None => Blocked
        | Some (r, g') => Done r (set_event_group (Some g') m) []
        end
    end.

(** One turn of the loop of [recovery_task] once the wait has returned
    [bits]; [report] is what the watchdog prints when asked. *)
Definition recovery_task_woken (bits : Z) (report : list string) : Prog machine unit :=
  ESP_LOGI "----------------A---------------------" [] ;;
  modify (set_capturing_task_name false) ;;
  modify (set_task_name_captured false) ;;
  modify (fun m => set_failed_task_name (store 0 NUL (failed_task_name m)) m) ;;
  esp_task_wdt_print_triggered_tasks twdt_msg_handler report ;;
  ESP_LOGI "----------------B---------------------" [] ;;
  when (negb (Z.land bits RECOVERY_ACTIVE_BIT =? 0)%Z)
    (occurred <- get g_watchdog_timeout_occurred ;;
     when occurred
       (modify (set_g_watchdog_timeout_occurred false) ;;
        ESP_LOGE "Custom TWDT handler was invoked! Task failed to reset the watchdog in time." [] ;;
        ESP_LOGE "Performing recovery actions..." [] ;;
        captured <- get task_name_captured ;;
        when captured
          (name <- get failed_task_name ;;
           when (strcmp name "test_user" =? 0)%Z
             (ESP_LOGI "test_user failed, taking specific recovery action..." [] ;;
              repeat_times 10
                (gpio_set_level STATUS_LED 1 ;;
                 vTaskDelay_ms 100 ;;
                 gpio_set_level STATUS_LED 0 ;;
                 vTaskDelay_ms 100)) ;;
           name <- get failed_task_name ;;
           when (strcmp name "test_2_user" =? 0)%Z
             (ESP_LOGI "test_2_user failed, taking specific recovery action..." [] ;;
              repeat_times 10
                (gpio_set_level STATUS_LED_2 1 ;;
                 vTaskDelay_ms 100 ;;
                 gpio_set_level STATUS_LED_2 0 ;;
                 vTaskDelay_ms 100))) ;;
        ESP_LOGI "Recovery complete" [])) ;;
  vTaskDelay_ms 100.

(** One turn of the loop of [recovery_task]. *)
Definition recovery_task_iteration (report : list string) : Prog machine unit :=
  bits <- xEventGroupWaitBits RECOVERY_ACTIVE_BIT true false ;;
  recovery_task_woken bits report.

(** [created] tells whether [xEventGroupCreate] could allocate the group,
    [err] is what [esp_task_wdt_init] returns. *)
Definition app_main (created : bool) (err : Z) : Prog machine unit :=
  ESP_LOGI "Starting Task Watchdog Example" [] ;;
  init_gpio ;;
  emit EventGroupCreate ;;
  modify (set_event_group (if created then Some 0%Z else None)) ;;
  init_watchdog err ;;
  emit (TaskCreate "recovery_task" 4096 5) ;;
  emit (TaskCreate "test_task" 2048 4) ;;
  emit (TaskCreate "test_2_task" 2048 4) ;;
  ESP_LOGI "All tasks created, system running" [].

(** What can run next in the program, with the platform's answers.  Each
    action runs as one undivided step; where an interrupt inside a turn
    of the recovery task matters, the turn is taken apart into its wait
    ([xEventGroupWaitBits]) and the rest ([recovery_task_woken]). *)
Inductive action :=
| AppMain (created : bool) (err : Z)
| Isr (woken : bool)
| RecoveryTask (report : list string)
| TestTaskRegister (err handle : Z)
| TestTask (err counter : Z)
| Test2TaskRegister (err handle : Z)
| Test2Task (err counter : Z).

Definition run (a : action) : Prog machine unit :=
  match a with
  | AppMain created err => app_main created err
  | Isr woken => esp_task_wdt_isr_user_handler woken
  | RecoveryTask report => recovery_task_iteration report
  | TestTaskRegister err handle => test_task_register err handle
  | TestTask err counter => test_task_iteration err counter ;; ret tt
  | Test2TaskRegister err handle => test_2_task_register err handle
  | Test2Task err counter => test_2_task_iteration err counter ;; ret tt
  end.

(** The globals after a run of actions that all complete ([None] when one
    of them blocks or aborts). *)
Fixpoint run_all (acts : list action) (m : machine) : option machine :=
  match acts with
  | [] => Some m
  | a :: acts' =>
      match run a m with
      | Done _ m' _ => run_all acts' m'
      | Blocked | Aborted => None
      end
  end.

Definition is_recovery (a : action) : bool :=
  match a with RecoveryTask _ => true | _ => false end.

(** *** The attributor: the handler over the lines of one report *)

Record AttributionResult := { captured : bool; name : string }.

Definition attribution_of (m : machine) : AttributionResult :=
  {| captured := task_name_captured m; name := c_str (failed_task_name m) |}.

(** The scratch state as [recovery_task] resets it before each report. *)
Definition reset_scratch (m : machine) : machine :=
  set_failed_task_name (store 0 NUL (failed_task_name m))
    (set_task_name_captured false (set_capturing_task_name false m)).

Definition feed (report : list string) (m : machine) : machine :=
  fold_left (fun m msg => twdt_msg_handler msg m) report m.

Definition attribute (report : list string) (m : machine) : AttributionResult :=
  attribution_of (feed report (reset_scratch m)).

(** The kinds of line the handler tells apart. *)
Definition is_header (msg : string) : bool := negb (is_null (strstr msg " -")).
Definition is_terminator (msg : string) : bool :=
  negb (is_header msg) && negb (is_null (strstr msg "(CPU")).
Definition is_detail (msg : string) : bool :=
  negb (is_header msg) && is_null (strstr msg "(CPU").

(** A header/detail/terminator group of a report. *)
Record group := { header : string; detail : string; terminator : string }.

Definition complete (g : group) : bool :=
  is_header (header g) && is_detail (detail g) && is_terminator (terminator g).

Definition lines (g : group) : list string := [header g; detail g; terminator g].

Definition report_of (gs : list group) : list string := flat_map lines gs.

(** A group parses when the handler stores its detail line. *)
Definition parses (g : group) : bool := Nat.ltb (strlen (detail g)) MAX_TASK_NAME_LEN.

(** The reading of the specification: the result of a report of groups
    holds the name of the last group that parsed. *)
Fixpoint last_parsed_name (gs : list group) : option string :=
  match gs with
  | [] => None
  | g :: gs' =>
      match last_parsed_name gs' with
      | Some n => Some n
      | None => if parses g then Some (c_str (detail g)) else None
      end
  end.

Definition spec_attribution (gs : list group) : AttributionResult :=
  match last_parsed_name gs with
  | Some n => {| captured := true; name := n |}
  | None => {| captured := false; name := EmptyString |}
  end.

(** Where a stored name comes from: nowhere, or a detail line short
    enough for the buffer. *)
Definition stored_from (report : list string) (n : string) : Prop :=
  n = EmptyString \/
  exists msg, In msg report /\ is_detail msg = true /\
              strlen msg < MAX_TASK_NAME_LEN /\ n = c_str msg.

(** *** What a turn of the recovery loop leaves in the trace *)

Definition blink (pin : Z) : trace :=
  List.concat (List.repeat [GpioSetLevel pin 1; TaskDelayMs 100;
                  GpioSetLevel pin 0; TaskDelayMs 100] 10).

Definition diagnosis_trace : trace :=
  [Log LOG_INFO "----------------A---------------------" [];
   TaskWdtPrintTriggeredTasks;
   Log LOG_INFO "----------------B---------------------" []].

(** The actions taken for the name left in the scratch state. *)
Definition recovery_actions (m : machine) : trace :=
  if task_name_captured m then
    ((if (strcmp (failed_task_name m) "test_user" =? 0)%Z
      then Log LOG_INFO "test_user failed, taking specific recovery action..." []
           :: blink STATUS_LED
      else [])
     ++
     (if (strcmp (failed_task_name m) "test_2_user" =? 0)%Z
      then Log LOG_INFO "test_2_user failed, taking specific recovery action..." []
           :: blink STATUS_LED_2
      else []))%list
  else [].

Definition recovery_trace (m : machine) : trace :=
  (diagnosis_trace
   ++ [Log LOG_ERROR "Custom TWDT handler was invoked! Task failed to reset the watchdog in time." [];
       Log LOG_ERROR "Performing recovery actions..." []]
   ++ recovery_actions m
   ++ [Log LOG_INFO "Recovery complete" []; TaskDelayMs 100])%list.

End MultiTask.

(** ** main.c *)

Module Main.

Definition STATUS_LED : Z := GPIO_NUM_2.

(** The globals of the file. *)
Record machine := {
  event_group : option Z;
  twdt_user_handle : Z;
  g_watchdog_timeout_occurred : bool
}.

Definition initial : machine := {|
  event_group := None;
  twdt_user_handle := 0;
  g_watchdog_timeout_occurred := false
|}.

Definition set_event_group (v : option Z) (m : machine) : machine :=
  {| event_group := v;
     twdt_user_handle := twdt_user_handle m;
     g_watchdog_timeout_occurred := g_watchdog_timeout_occurred m |}.

Definition set_twdt_user_handle (v : Z) (m : machine) : machine :=
  {| event_group := event_group m;
     twdt_user_handle := v;
     g_watchdog_timeout_occurred := g_watchdog_timeout_occurred m |}.

Definition set_g_watchdog_timeout_occurred (v : bool) (m : machine) : machine :=
  {| event_group := event_group m;
     twdt_user_handle := twdt_user_handle m;
     g_watchdog_timeout_occurred := v |}.

Definition is_null {A} (p : option A) : bool :=
  match p with None => true | Some _ => false end.

Definition xEventGroupSetBitsFromISR (bits : Z) (woken : bool) : Prog machine bool :=
  emit (EventGroupSetBitsFromISR bits) ;;
  modify (fun m => set_event_group (option_map (fun g => set_bits g bits) (event_group m)) m) ;;
  ret woken.

Definition esp_task_wdt_isr_user_handler (woken : bool) : Prog machine unit :=
  modify (set_g_watchdog_timeout_occurred true) ;;
  eg <- get event_group ;;
  when (negb (is_null eg))
    (xHigherPriorityTaskWoken <- xEventGroupSetBitsFromISR RECOVERY_ACTIVE_BIT woken ;;
     when xHigherPriorityTaskWoken (emit YieldFromISR)).

Definition init_gpio : Prog machine unit :=
  emit (GpioConfig {| pin_bit_mask := Z.shiftl 1 STATUS_LED;
                      mode := GPIO_MODE_OUTPUT;
                      pull_up_en := 0;
                      pull_down_en := 0;
                      intr_type := GPIO_INTR_DISABLE |}) ;;
  gpio_set_level STATUS_LED 0.

Definition twdt_config : esp_task_wdt_config_t :=
  {| timeout_ms := WATCHDOG_TIMEOUT_MS;
     idle_core_mask := 0;
     trigger_panic := false |}.

Definition init_watchdog (err : Z) : Prog machine unit :=
  emit (TaskWdtInit twdt_config) ;;
  ESP_ERROR_CHECK err ;;
  ESP_LOGI "TWDT initialized with timeout: %d ms" [WATCHDOG_TIMEOUT_MS].

Definition test_task_register (err handle : Z) : Prog machine unit :=
  emit (TaskWdtAddUser "test_user") ;;
  modify (set_twdt_user_handle handle) ;;
  ESP_ERROR_CHECK err ;;
  ESP_LOGI "Test task registered with TWDT" [].

Definition esp_task_wdt_reset_user (handle : machine -> Z) (err : Z) : Prog machine unit :=
  h <- get handle ;;
  emit (TaskWdtResetUser h) ;;
  ESP_ERROR_CHECK err.

Definition test_task_iteration (err : Z) (counter : Z) : Prog machine Z :=
  let counter := int_wrap (counter + 1) in
  ESP_LOGI "Test task running, counter = %d" [counter] ;;
  counter <-
    (if counter <=? 3 then
       ESP_LOGI "Resetting watchdog timer (%d/3)" [counter] ;;
       esp_task_wdt_reset_user twdt_user_handle err ;;
       ret counter
     else if counter =? 4 then
       ESP_LOGW "Not resetting watchdog - will trigger timeout in %d ms" [WATCHDOG_TIMEOUT_MS] ;;
       ret counter
     else if (10 <? counter) && (counter <? 20) then
       ESP_LOGI "Resuming normal operation, resetting watchdog" [] ;;
       esp_task_wdt_reset_user twdt_user_handle err ;;
       ret counter
     else if (20 <? counter) && (counter <? 30) then
       ESP_LOGI "Not resetting watchdog - will trigger timeout in %d ms" [WATCHDOG_TIMEOUT_MS] ;;
       ret counter
     else if (30 <? counter) && (counter <? 40) then
       ESP_LOGI "Resuming normal operation, resetting watchdog" [] ;;
       esp_task_wdt_reset_user twdt_user_handle err ;;
       ret 0
     else ret counter)%Z ;;
  gpio_set_level STATUS_LED (Z.rem counter 2) ;;
  vTaskDelay_ms 1000 ;;
  ret counter.

Definition xEventGroupWaitBits (bits : Z) (clearOnExit waitForAll : bool)
  : Prog machine Z :=
  fun m =>
    match event_group m with
    | None => Aborted
    | Some g =>
        match wait_bits g bits clearOnExit waitForAll with
        | None => Blocked
        | Some (r, g') => Done r (set_event_group (Some g') m) []
        end
    end.

(** One turn of the loop of [recovery_task] once the wait has returned
    [bits]. *)
Definition recovery_task_woken (bits : Z) : Prog machine unit :=
  when (negb (Z.land bits RECOVERY_ACTIVE_BIT =? 0)%Z)
    (occurred <- get g_watchdog_timeout_occurred ;;
     when occurred
       (modify (set_g_watchdog_timeout_occurred false) ;;
        ESP_LOGE "Custom TWDT handler was invoked! Task failed to reset the watchdog in time." [] ;;
        ESP_LOGE "Performing recovery actions..." [] ;;
        repeat_times 10
          (gpio_set_level STATUS_LED 1 ;;
           vTaskDelay_ms 100 ;;
           gpio_set_level STATUS_LED 0 ;;
           vTaskDelay_ms 100) ;;
        ESP_LOGI "Recovery complete" [])) ;;
  vTaskDelay_ms 100.

Definition recovery_task_iteration : Prog machine unit :=
  bits <- xEventGroupWaitBits RECOVERY_ACTIVE_BIT true false ;;
  recovery_task_woken bits.

Definition app_main (created : bool) (err : Z) : Prog machine unit :=
  ESP_LOGI "Starting Task Watchdog Example" [] ;;
  init_gpio ;;
  emit EventGroupCreate ;;
  modify (set_event_group (if created then Some 0%Z else None)) ;;
  init_watchdog err ;;
  emit (TaskCreate "recovery_task" 2048 5) ;;
  emit (TaskCreate "test_task" 2048 4) ;;
  ESP_LOGI "All tasks created, system running" [].

Inductive action :=
| AppMain (created : bool) (err : Z)
| Isr (woken : bool)
| RecoveryTask
| TestTaskRegister (err handle : Z)
| TestTask (err counter : Z).

Definition run (a : action) : Prog machine unit :=
  match a with
  | AppMain created err => app_main created err
  | Isr woken => esp_task_wdt_isr_user_handler woken
  | RecoveryTask => recovery_task_iteration
  | TestTaskRegister err handle => test_task_register err handle
  | TestTask err counter => test_task_iteration err counter ;; ret tt
  end.

Fixpoint run_all (acts : list action) (m : machine) : option machine :=
  match acts with
  | [] => Some m
  | a :: acts' =>
      match run a m with
      | Done _ m' _ => run_all acts' m'
      | Blocked | Aborted => None
      end
  end.

Definition is_recovery (a : action) : bool :=
  match a with RecoveryTask => true | _ => false end.

(** What a recovery leaves in the trace. *)
Definition recovery_trace : trace :=
  ([Log LOG_ERROR "Custom TWDT handler was invoked! Task failed to reset the watchdog in time." [];
    Log LOG_ERROR "Performing recovery actions..." []]
   ++ List.concat (List.repeat [GpioSetLevel STATUS_LED 1; TaskDelayMs 100;
                      GpioSetLevel STATUS_LED 0; TaskDelayMs 100] 10)
   ++ [Log LOG_INFO "Recovery complete" []; TaskDelayMs 100])%list.

End Main.

(** ** The timer subsystem at expiry *)

(** Modelled from the spec: the expiry path of the task watchdog belongs to
    the platform and is not among the sources.  The specification has the
    timer subsystem invoke the interrupt handler when a deadline elapses and
    lets [panic_on_expiry] decide whether the process is then aborted. *)
Definition twdt_expiry {St} (cfg : esp_task_wdt_config_t)
    (user_handler : Prog St unit) : Prog St unit :=
  user_handler ;;
  when (trigger_panic cfg) abort.

(** ** Reading traces *)

Definition is_isr_event (e : event) : bool :=
  match e with
  | EventGroupSetBitsFromISR _ | YieldFromISR => true
  | _ => false
  end.

Definition is_gpio_event (e : event) : bool :=
  match e with GpioSetLevel _ _ => true | _ => false end.

(** ** Relating the globals before and after a program *)

(** [keeps R p]: whenever [p] completes, the globals before and after are
    related by [R]. *)
Definition keeps {St A} (R : St -> St -> Prop) (p : Prog St A) : Prop :=
  forall s a s' tr, p s = Done a s' tr -> R s s'.

(** The wake bit of a machine is clear when there is no event group or the
    group's bit is not set. *)
Definition wake_clear (eg : option Z) : Prop :=
  match eg with
  | None => True
  | Some g => Z.land g RECOVERY_ACTIVE_BIT = 0%Z
  end.

Definition is_isr (a : MultiTask.action) : bool :=
  match a with MultiTask.Isr _ => true | _ => false end.

(** The flag, once set, is still set. *)
Definition flag_stays (m m' : MultiTask.machine) : Prop :=
  MultiTask.g_watchdog_timeout_occurred m = true ->
  MultiTask.g_watchdog_timeout_occurred m' = true.


(** A clear wake bit is still clear. *)
Definition wake_stays_clear (m m' : MultiTask.machine) : Prop :=
  wake_clear (MultiTask.event_group m) ->
  wake_clear (MultiTask.event_group m').

(** The buffer has its declared size and holds a terminated string. *)
Definition buffer_ok (m : MultiTask.machine) : Prop :=
  String.length (MultiTask.failed_task_name m) = MultiTask.MAX_TASK_NAME_LEN /\
  strlen (MultiTask.failed_task_name m) < MultiTask.MAX_TASK_NAME_LEN.

(** ** The loops of the monitored tasks *)

(** The loop of [test_task] in [watchdog_multi_task.c], for as many turns
    as the platform gives answers to the reset calls. *)
Fixpoint test_task_turns (errs : list Z) (counter : Z)
  : Prog MultiTask.machine Z :=
  match errs with
  | [] => ret counter
  | err :: errs' =>
      counter' <- MultiTask.test_task_iteration err counter ;;
      test_task_turns errs' counter'
  end.

Fixpoint test_2_task_turns (errs : list Z) (counter : Z)
  : Prog MultiTask.machine Z :=
  match errs with
  | [] => ret counter
  | err :: errs' =>
      counter' <- MultiTask.test_2_task_iteration err counter ;;
      test_2_task_turns errs' counter'
  end.

(** The loop of [test_task] in [main.c]. *)
Fixpoint main_test_task_turns (errs : list Z) (counter : Z)
  : Prog Main.machine Z :=
  match errs with
  | [] => ret counter
  | err :: errs' =>
      counter' <- Main.test_task_iteration err counter ;;
      main_test_task_turns errs' counter'
  end.

(** The turns in which the tasks reset the watchdog, by the value of the
    counter on entry. *)
Definition resets_on (counter : Z) : bool :=
  let n := (counter + 1)%Z in
  ((n <=? 3) || ((10 <? n) && (n <? 20)) || ((30 <? n) && (n <? 40)))%Z.

Definition is_reset_event (e : event) : bool :=
  match e with TaskWdtResetUser _ => true | _ => false end.


(** The longest stretch of delay in a trace without a reset of the
    watchdog in between. *)
Fixpoint silence_from (running longest : Z) (tr : trace) : Z :=
  match tr with
  | [] => Z.max longest running
  | TaskWdtResetUser _ :: tr' => silence_from 0 (Z.max longest running) tr'
  | TaskDelayMs ms :: tr' => silence_from (running + ms) longest tr'
  | _ :: tr' => silence_from running longest tr'
  end.

Definition longest_silence (tr : trace) : Z := silence_from 0 0 tr.

(** ** The scratch state as the coordinator reads it *)

(** What the rest of the program can see of the scratch state: the two
    booleans and the C string in the buffer. *)
Record scratch := {
  s_capturing : bool;
  s_captured : bool;
  s_name : string
}.

Definition scratch_of (m : MultiTask.machine) : scratch :=
  {| s_capturing := MultiTask.capturing_task_name m;
     s_captured := MultiTask.task_name_captured m;
     s_name := c_str (MultiTask.failed_task_name m) |}.

(** The handler as a machine over these three fields. *)
Definition scratch_step (msg : string) (s : scratch) : scratch :=
  if MultiTask.is_header msg then
    {| s_capturing := true; s_captured := s_captured s; s_name := EmptyString |}
  else if MultiTask.is_detail msg then
    if s_capturing s && Nat.ltb (strlen msg) MultiTask.MAX_TASK_NAME_LEN
    then {| s_capturing := true; s_captured := true; s_name := c_str msg |}
    else s
  else
    {| s_capturing := false; s_captured := s_captured s; s_name := s_name s |}.

Definition scratch_feed (report : list string) (s : scratch) : scratch :=
  fold_left (fun s msg => scratch_step msg s) report s.

(** The three fields after the reset that starts every diagnosis. *)
Definition scratch_reset : scratch :=
  {| s_capturing := false; s_captured := false; s_name := EmptyString |}.

Definition result_of (s : scratch) : MultiTask.AttributionResult :=
  {| MultiTask.captured := s_captured s; MultiTask.name := s_name s |}.

(** A line short enough for the buffer. *)
Definition fits (msg : string) : bool :=
  Nat.ltb (strlen msg) MultiTask.MAX_TASK_NAME_LEN.

(** The last line of a list that is short enough for the buffer. *)
Fixpoint last_short (msgs : list string) : option string :=
  match msgs with
  | [] => None
  | msg :: msgs' =>
      match last_short msgs' with
      | Some d => Some d
      | None => if Nat.ltb (strlen msg) MultiTask.MAX_TASK_NAME_LEN
                then Some msg else None
      end
  end.

(** The LED writes of one recovery action. *)
Definition led_toggles (pin : Z) : trace :=
  List.concat (List.repeat [GpioSetLevel pin 1; GpioSetLevel pin 0] 10).

Definition is_app_main (a : MultiTask.action) : bool :=
  match a with MultiTask.AppMain _ _ => true | _ => false end.

(** A detail line short enough for the buffer. *)
Definition fitting_detail (msg : string) : bool :=
  MultiTask.is_detail msg && fits msg.

(** The lines of a report that come after its first header line. *)
Fixpoint after_first_header (report : list string) : list string :=
  match report with
  | [] => []
  | msg :: rest =>
      if MultiTask.is_header msg then rest else after_first_header rest
  end.

(** Relations kept by the code paths of [watchdog_multi_task.c]. *)
Definition buffer_stays_ok (m m' : MultiTask.machine) : Prop :=
  buffer_ok m -> buffer_ok m'.

Definition group_stays_null (m m' : MultiTask.machine) : Prop :=
  MultiTask.event_group m = None -> MultiTask.event_group m' = None.

(** The globals once the handler has run on a created group. *)
Definition signalled (g : Z) (m : MultiTask.machine) : MultiTask.machine :=
  MultiTask.set_event_group (Some (set_bits g RECOVERY_ACTIVE_BIT))
    (MultiTask.set_g_watchdog_timeout_occurred true m).

Definition main_signalled (g : Z) (m : Main.machine) : Main.machine :=
  Main.set_event_group (Some (set_bits g RECOVERY_ACTIVE_BIT))
    (Main.set_g_watchdog_timeout_occurred true m).

Definition is_completion_log (e : event) : bool :=
  match e with
  | Log LOG_INFO "Recovery complete" [] => true
  | _ => false
  end.

(** ** The two halves of startup *)





(** * Properties *)

(** ** C strings and the buffer *)

Section CStrings.

Lemma c_str_length_le (mem : string) : strlen mem <= String.length mem.
Proof.
  unfold strlen. induction mem as [|c rest IH]; simpl; [lia|].
  destruct (is_nul c); simpl; lia.
Qed.

Lemma c_str_idem (mem : string) : c_str (c_str mem) = c_str mem.
Proof.
  induction mem as [|c rest IH]; simpl; [reflexivity|].
  destruct (is_nul c) eqn:E; simpl; [reflexivity|].
  rewrite E, IH. reflexivity.
Qed.

Lemma store_length (i : nat) (c : ascii) (buf : string) :
  String.length (store i c buf) = Nat.max (S i) (String.length buf).
Proof.
  revert buf. induction i as [|i IH]; intros [|b rest]; simpl;
    try rewrite IH; simpl; lia.
Qed.

Lemma strncpy_length (n : nat) (dest src : string) :
  String.length (strncpy dest src n) = Nat.max n (String.length dest).
Proof.
  revert dest src. induction n as [|n IH]; intros dest src; simpl; [reflexivity|].
  assert (Hd : S (Nat.max n (String.length (tail dest)))
               = Nat.max (S n) (String.length dest))
    by (destruct dest; simpl; lia).
  destruct src as [|c src']; [|destruct (is_nul c)]; simpl; rewrite IH; exact Hd.
Qed.

Lemma c_str_store_0 (buf : string) : c_str (store 0 NUL buf) = EmptyString.
Proof. destruct buf; reflexivity. Qed.

Lemma c_str_nul_padding (n : nat) (dest : string) :
  c_str (store n NUL (strncpy dest EmptyString n)) = EmptyString.
Proof. destruct n; [apply c_str_store_0 | reflexivity]. Qed.

(** Copying a C string that fits and closing the buffer behind it gives
    the string back. *)
Lemma c_str_strncpy (n : nat) (dest src : string) :
  strlen src <= n ->
  c_str (store n NUL (strncpy dest src n)) = c_str src.
Proof.
  unfold strlen. revert dest src.
  induction n as [|n IH]; intros dest src Hlen.
  - cbn [strncpy]. rewrite c_str_store_0.
    destruct (c_str src); [reflexivity | simpl in Hlen; lia].
  - destruct src as [|c src'].
    + reflexivity.
    + simpl in *. destruct (is_nul c) eqn:E.
      * simpl. reflexivity.
      * simpl in *. rewrite E. f_equal. apply IH. lia.
Qed.

Lemma load_store_same (n : nat) (c : ascii) (buf : string) :
  load n (store n c buf) = c.
Proof.
  unfold load. revert buf.
  induction n as [|n IH]; intros [|b rest]; simpl; auto.
Qed.

End CStrings.

(** Projections of updated globals, without unfolding the string
    functions. *)
Ltac fields :=
  cbn [MultiTask.event_group MultiTask.twdt_user_handle
       MultiTask.twdt_user_2_handle MultiTask.g_watchdog_timeout_occurred
       MultiTask.failed_task_name MultiTask.capturing_task_name
       MultiTask.task_name_captured MultiTask.set_event_group
       MultiTask.set_twdt_user_handle MultiTask.set_twdt_user_2_handle
       MultiTask.set_g_watchdog_timeout_occurred
       MultiTask.set_failed_task_name MultiTask.set_capturing_task_name
       MultiTask.set_task_name_captured
       Main.event_group Main.twdt_user_handle Main.g_watchdog_timeout_occurred
       Main.set_event_group Main.set_twdt_user_handle
       Main.set_g_watchdog_timeout_occurred] in *.

(** Running a program of plain statements. *)
Ltac run_prog :=
  cbv [bind ret get modify emit when abort ESP_LOGE ESP_LOGW ESP_LOGI
       vTaskDelay_ms gpio_set_level repeat_times app].

(** ** The message handler, case by case *)

Section Handler.

Import MultiTask.


Lemma handler_header (msg : string) (m : machine) :
  is_header msg = true ->
  twdt_msg_handler msg m
  = set_failed_task_name (store 0 NUL (failed_task_name m))
      (set_capturing_task_name true m).
Proof. unfold is_header, twdt_msg_handler. intros ->. reflexivity. Qed.

Lemma is_detail_inv (msg : string) :
  is_detail msg = true ->
  is_null (strstr msg " -") = true /\ is_null (strstr msg "(CPU") = true.
Proof.
  unfold is_detail, is_header. rewrite andb_true_iff, negb_involutive. tauto.
Qed.

Lemma is_terminator_inv (msg : string) :
  is_terminator msg = true ->
  is_null (strstr msg " -") = true /\ is_null (strstr msg "(CPU") = false.
Proof.
  unfold is_terminator, is_header.
  rewrite andb_true_iff, negb_involutive, negb_true_iff. tauto.
Qed.

Lemma handler_stored (msg : string) (m : machine) :
  is_detail msg = true ->
  capturing_task_name m = true ->
  strlen msg < MAX_TASK_NAME_LEN ->
  twdt_msg_handler msg m
  = set_task_name_captured true
      (set_failed_task_name
         (store (MAX_TASK_NAME_LEN - 1) NUL
            (strncpy (failed_task_name m) msg (MAX_TASK_NAME_LEN - 1))) m).
Proof.
  intros Hd Hc Hlen. destruct (is_detail_inv _ Hd) as [Hh Ht].
  unfold twdt_msg_handler. rewrite Hh, Ht, Hc. simpl negb. cbv iota.
  apply Nat.ltb_lt in Hlen. rewrite Hlen. reflexivity.
Qed.

Lemma handler_skipped (msg : string) (m : machine) :
  is_detail msg = true ->
  MAX_TASK_NAME_LEN <= strlen msg ->
  twdt_msg_handler msg m = m.
Proof.
  intros Hd Hlen. destruct (is_detail_inv _ Hd) as [Hh Ht].
  unfold twdt_msg_handler. rewrite Hh, Ht. simpl negb. cbv iota.
  apply Nat.ltb_ge in Hlen. rewrite Hlen.
  destruct (capturing_task_name m); reflexivity.
Qed.

Lemma handler_idle (msg : string) (m : machine) :
  is_header msg = false ->
  capturing_task_name m = false ->
  twdt_msg_handler msg m = m.
Proof.
  unfold is_header. rewrite negb_false_iff. intros Hh Hc.
  unfold twdt_msg_handler. rewrite Hh, Hc. simpl.
  destruct m as [eg h1 h2 fl buf cap got]; simpl in Hc; subst cap.
  destruct (is_null (strstr msg "(CPU")); reflexivity.
Qed.

Lemma handler_terminator (msg : string) (m : machine) :
  is_terminator msg = true ->
  twdt_msg_handler msg m = set_capturing_task_name false m.
Proof.
  intros Ht. destruct (is_terminator_inv _ Ht) as [Hh Hc].
  unfold twdt_msg_handler. rewrite Hh, Hc, andb_false_r. reflexivity.
Qed.

(** The handler writes the scratch state and nothing else. *)
Lemma handler_frame (msg : string) (m : machine) :
  let m' := twdt_msg_handler msg m in
  event_group m' = event_group m /\
  twdt_user_handle m' = twdt_user_handle m /\
  twdt_user_2_handle m' = twdt_user_2_handle m /\
  g_watchdog_timeout_occurred m' = g_watchdog_timeout_occurred m.
Proof.
  unfold twdt_msg_handler.
  destruct (negb (is_null (strstr msg " -")));
    destruct (capturing_task_name m && is_null (strstr msg "(CPU"));
    destruct (Nat.ltb (strlen msg) MAX_TASK_NAME_LEN);
    destruct (negb (is_null (strstr msg "(CPU")));
    repeat split; reflexivity.
Qed.

Lemma feed_app (r1 r2 : list string) (m : machine) :
  feed (r1 ++ r2) m = feed r2 (feed r1 m).
Proof. unfold feed. apply fold_left_app. Qed.

Lemma feed_frame (report : list string) (m : machine) :
  let m' := feed report m in
  event_group m' = event_group m /\
  twdt_user_handle m' = twdt_user_handle m /\
  twdt_user_2_handle m' = twdt_user_2_handle m /\
  g_watchdog_timeout_occurred m' = g_watchdog_timeout_occurred m.
Proof.
  revert m. induction report as [|msg report IH]; intros m; simpl; [auto|].
  destruct (IH (twdt_msg_handler msg m)) as (A & B & C & D).
  destruct (handler_frame msg m) as (A' & B' & C' & D').
  simpl in *. repeat split; congruence.
Qed.

(** The array keeps its size: no write of the handler falls outside. *)
Lemma handler_buffer_length (msg : string) (m : machine) :
  String.length (failed_task_name m) = MAX_TASK_NAME_LEN ->
  String.length (failed_task_name (twdt_msg_handler msg m)) = MAX_TASK_NAME_LEN.
Proof.
  intros Hlen. unfold twdt_msg_handler.
  destruct (negb (is_null (strstr msg " -")));
    destruct (capturing_task_name m && is_null (strstr msg "(CPU"));
    destruct (Nat.ltb (strlen msg) MAX_TASK_NAME_LEN);
    destruct (negb (is_null (strstr msg "(CPU")));
    fields;
    rewrite ?store_length, ?strncpy_length, ?Hlen; reflexivity.
Qed.

Lemma feed_buffer_length (report : list string) (m : machine) :
  String.length (failed_task_name m) = MAX_TASK_NAME_LEN ->
  String.length (failed_task_name (feed report m)) = MAX_TASK_NAME_LEN.
Proof.
  revert m. induction report as [|msg report IH]; intros m Hlen; simpl; [exact Hlen|].
  apply IH, handler_buffer_length, Hlen.
Qed.

(** Without a header line the handler never starts capturing. *)
Lemma feed_no_header (report : list string) (m : machine) :
  Forall (fun msg => is_header msg = false) report ->
  capturing_task_name m = false ->
  feed report m = m.
Proof.
  intros Hall Hc. induction Hall as [|msg report Hmsg _ IH]; simpl; [reflexivity|].
  rewrite (handler_idle msg m Hmsg Hc). exact IH.
Qed.

Lemma stored_from_length (report : list string) (n : string) :
  stored_from report n -> String.length n < MAX_TASK_NAME_LEN.
Proof.
  intros [-> | (msg & _ & _ & Hlen & ->)]; [cbv; lia | exact Hlen].
Qed.

Lemma handler_name (msg : string) (m : machine) :
  let n' := c_str (failed_task_name (twdt_msg_handler msg m)) in
  n' = c_str (failed_task_name m) \/ stored_from [msg] n'.
Proof.
  simpl. destruct (is_header msg) eqn:Hh.
  - rewrite handler_header by exact Hh. fields. rewrite c_str_store_0.
    right. left. reflexivity.
  - destruct (is_null (strstr msg "(CPU")) eqn:Ht.
    + assert (Hd : is_detail msg = true) by (unfold is_detail; rewrite Hh, Ht; reflexivity).
      destruct (capturing_task_name m) eqn:Hc.
      * destruct (Nat.ltb_spec (strlen msg) MAX_TASK_NAME_LEN) as [Hlen | Hlen].
        -- rewrite handler_stored by assumption. fields.
           rewrite c_str_strncpy by (unfold MAX_TASK_NAME_LEN in *; lia).
           right. right. exists msg. repeat split; auto. left. reflexivity.
        -- rewrite handler_skipped by assumption. left. reflexivity.
      * rewrite handler_idle by assumption. left. reflexivity.
    + rewrite handler_terminator by (unfold is_terminator; rewrite Hh, Ht; reflexivity).
      left. reflexivity.
Qed.

Lemma handler_captured (msg : string) (m : machine) :
  task_name_captured (twdt_msg_handler msg m) = true ->
  task_name_captured m = true \/
  (is_detail msg = true /\ strlen msg < MAX_TASK_NAME_LEN /\ capturing_task_name m = true).
Proof.
  destruct (is_header msg) eqn:Hh.
  - rewrite handler_header by exact Hh. fields. auto.
  - destruct (is_null (strstr msg "(CPU")) eqn:Ht.
    + assert (Hd : is_detail msg = true) by (unfold is_detail; rewrite Hh, Ht; reflexivity).
      destruct (capturing_task_name m) eqn:Hc.
      * destruct (Nat.ltb_spec (strlen msg) MAX_TASK_NAME_LEN) as [Hlen | Hlen].
        -- intros _. right. auto.
        -- rewrite handler_skipped by assumption. auto.
      * rewrite handler_idle by assumption. auto.
    + rewrite handler_terminator by (unfold is_terminator; rewrite Hh, Ht; reflexivity).
      fields. auto.
Qed.

Lemma stored_from_incl (r1 r2 : list string) (n : string) :
  incl r1 r2 -> stored_from r1 n -> stored_from r2 n.
Proof.
  intros Hi [-> | (msg & Hin & H)]; [left; reflexivity|].
  right. exists msg. split; [apply Hi, Hin | exact H].
Qed.

Lemma feed_name (report : list string) (m : machine) :
  let n' := c_str (failed_task_name (feed report m)) in
  n' = c_str (failed_task_name m) \/ stored_from report n'.
Proof.
  revert m. induction report as [|msg report IH]; intros m; simpl; [auto|].
  destruct (IH (twdt_msg_handler msg m)) as [E | Hs].
  - simpl in E. rewrite E.
    destruct (handler_name msg m) as [E' | Hs']; [left; exact E'|].
    right. eapply stored_from_incl; [|exact Hs'].
    intros x [<- | []]. left. reflexivity.
  - right. eapply stored_from_incl; [|exact Hs]. apply incl_tl, incl_refl.
Qed.

Lemma feed_captured (report : list string) (m : machine) :
  task_name_captured (feed report m) = true ->
  task_name_captured m = true \/
  exists msg, In msg report /\ is_detail msg = true /\ strlen msg < MAX_TASK_NAME_LEN.
Proof.
  revert m. induction report as [|msg report IH]; intros m; simpl; [auto|].
  intros H. destruct (IH _ H) as [Hc | (x & Hin & Hx)].
  - destruct (handler_captured msg m Hc) as [Hm | (Hd & Hlen & _)]; [auto|].
    right. exists msg. auto.
  - right. exists x. auto.
Qed.

End Handler.

(** ** Groups of a report *)

Section Groups.

Import MultiTask.

Lemma complete_inv (g : group) :
  complete g = true ->
  is_header (header g) = true /\ is_detail (detail g) = true /\
  is_terminator (terminator g) = true.
Proof. unfold complete. rewrite !andb_true_iff. tauto. Qed.

(** A complete group, from any scratch state: capturing is over, the
    buffer holds the group's name if it fits and is empty if not, and the
    group's header has wiped what the buffer held before. *)
Lemma feed_group (g : group) (m : machine) :
  complete g = true ->
  let m' := feed (lines g) m in
  capturing_task_name m' = false /\
  task_name_captured m' = task_name_captured m || parses g /\
  c_str (failed_task_name m')
  = if parses g then c_str (detail g) else EmptyString.
Proof.
  intros Hc. destruct (complete_inv g Hc) as (Hh & Hd & Ht).
  unfold lines, feed. cbn [fold_left].
  rewrite (handler_header _ m Hh).
  unfold parses.
  destruct (Nat.ltb_spec (strlen (detail g)) MAX_TASK_NAME_LEN) as [Hlen | Hlen].
  - rewrite (handler_stored (detail g)) by (try assumption; reflexivity).
    rewrite (handler_terminator (terminator g)) by assumption. fields.
    rewrite c_str_strncpy by (unfold MAX_TASK_NAME_LEN in *; lia).
    rewrite orb_true_r. auto.
  - rewrite (handler_skipped (detail g)) by assumption.
    rewrite (handler_terminator (terminator g)) by assumption. fields.
    rewrite c_str_store_0, orb_false_r. auto.
Qed.

Lemma report_of_app (gs1 gs2 : list group) :
  report_of (gs1 ++ gs2) = (report_of gs1 ++ report_of gs2)%list.
Proof. unfold report_of. apply flat_map_app. Qed.

Lemma feed_groups_captured (gs : list group) (m : machine) :
  forallb complete gs = true ->
  task_name_captured (feed (report_of gs) m)
  = task_name_captured m || existsb parses gs.
Proof.
  revert m. induction gs as [|g gs IH]; intros m Hall.
  - simpl. rewrite orb_false_r. reflexivity.
  - simpl in Hall. apply andb_true_iff in Hall as [Hg Hgs].
    change (report_of (g :: gs)) with (lines g ++ report_of gs)%list.
    rewrite feed_app, IH by exact Hgs.
    destruct (feed_group g m Hg) as (_ & -> & _).
    simpl. rewrite orb_assoc. reflexivity.
Qed.

End Groups.

(** ** A turn of the recovery loop *)

Section RecoveryLoop.

Import MultiTask.

Lemma print_triggered_tasks_eq (h : string -> machine -> machine)
    (report : list string) (m : machine) :
  esp_task_wdt_print_triggered_tasks h report m
  = Done tt (fold_left (fun m msg => h msg m) report m) [TaskWdtPrintTriggeredTasks].
Proof.
  unfold esp_task_wdt_print_triggered_tasks.
  assert (E : forall s, for_each (fun msg => modify (h msg)) report s
                        = Done tt (fold_left (fun m msg => h msg m) report s) []).
  { induction report as [|msg report IH]; intros s; [reflexivity|].
    cbn [for_each fold_left]. unfold bind at 1. unfold modify at 1.
    rewrite IH. reflexivity. }
  unfold bind, emit. rewrite E. reflexivity.
Qed.

Lemma reset_scratch_frame (m : machine) :
  g_watchdog_timeout_occurred (reset_scratch m) = g_watchdog_timeout_occurred m /\
  event_group (reset_scratch m) = event_group m.
Proof. split; reflexivity. Qed.

(** The turn in closed form: the diagnosis comes first, whatever the flag;
    the recovery follows when the wake bit was returned and the flag is
    set. *)
Lemma recovery_task_woken_eq (bits : Z) (report : list string) (m : machine) :
  recovery_task_woken bits report m
  = let m1 := feed report (reset_scratch m) in
    if negb (Z.land bits RECOVERY_ACTIVE_BIT =? 0)%Z && g_watchdog_timeout_occurred m
    then Done tt (set_g_watchdog_timeout_occurred false m1) (recovery_trace m1)
    else Done tt m1 (diagnosis_trace ++ [TaskDelayMs 100])%list.
Proof.
  destruct (feed_frame report (reset_scratch m)) as (_ & _ & _ & Hflag).
  cbv zeta in *. rewrite (proj1 (reset_scratch_frame m)) in Hflag.
  rewrite <- Hflag. clear Hflag.
  unfold recovery_task_woken.
  unfold bind at 1. unfold ESP_LOGI at 1. unfold emit at 1.
  unfold bind at 1. unfold modify at 1.
  unfold bind at 1. unfold modify at 1.
  unfold bind at 1. unfold modify at 1.
  unfold bind at 1. rewrite print_triggered_tasks_eq.
  change (fold_left (fun m0 msg => twdt_msg_handler msg m0) report
            (set_failed_task_name _ _))
    with (feed report (reset_scratch m)).
  generalize (feed report (reset_scratch m)). intros [eg h1 h2 fl buf cap got].
  unfold recovery_trace, recovery_actions, diagnosis_trace. fields.
  destruct (negb (Z.land bits RECOVERY_ACTIVE_BIT =? 0)%Z); [|reflexivity].
  destruct fl; [|reflexivity].
  destruct got; [|reflexivity].
  run_prog. fields.
  destruct (strcmp buf "test_user" =? 0)%Z; run_prog; fields;
    destruct (strcmp buf "test_2_user" =? 0)%Z; reflexivity.
Qed.

End RecoveryLoop.

(** ** Programs that keep a relation *)

Section Keeps.

Context {St : Type} (R : St -> St -> Prop).
Hypothesis R_refl : forall s, R s s.
Hypothesis R_trans : forall s1 s2 s3, R s1 s2 -> R s2 s3 -> R s1 s3.

Lemma keeps_ret {A} (a : A) : keeps R (ret a).
Proof. intros s a' s' tr H. inversion H; subst. apply R_refl. Qed.

Lemma keeps_emit (e : event) : keeps R (@emit St e).
Proof. intros s a' s' tr H. inversion H; subst. apply R_refl. Qed.

Lemma keeps_get {A} (f : St -> A) : keeps R (get f).
Proof. intros s a' s' tr H. inversion H; subst. apply R_refl. Qed.

Lemma keeps_abort {A} : keeps R (@abort St A).
Proof. intros s a' s' tr H. discriminate H. Qed.

Lemma keeps_modify (f : St -> St) : (forall s, R s (f s)) -> keeps R (modify f).
Proof. intros Hf s a' s' tr H. inversion H; subst. apply Hf. Qed.

Lemma keeps_bind {A B} (p : Prog St A) (k : A -> Prog St B) :
  keeps R p -> (forall a, keeps R (k a)) -> keeps R (bind p k).
Proof.
  intros Hp Hk s b s' tr H. unfold bind in H.
  destruct (p s) as [a s1 tr1| |] eqn:Ep; try discriminate.
  destruct (k a s1) as [b' s2 tr2| |] eqn:Ek; try discriminate.
  inversion H; subst.
  eapply R_trans; [eapply Hp, Ep | eapply Hk, Ek].
Qed.

Lemma keeps_if {A} (c : bool) (p q : Prog St A) :
  keeps R p -> keeps R q -> keeps R (if c then p else q).
Proof. destruct c; auto. Qed.

Lemma keeps_when (c : bool) (p : Prog St unit) :
  keeps R p -> keeps R (when c p).
Proof. intros Hp. unfold when. apply keeps_if; [exact Hp | apply keeps_ret]. Qed.

Lemma keeps_repeat_times (n : nat) (p : Prog St unit) :
  keeps R p -> keeps R (repeat_times n p).
Proof.
  intros Hp. induction n as [|n IH]; simpl; [apply keeps_ret|].
  apply keeps_bind; auto.
Qed.

Lemma keeps_for_each {A} (f : A -> Prog St unit) (xs : list A) :
  (forall x, keeps R (f x)) -> keeps R (for_each f xs).
Proof.
  intros Hf. induction xs as [|x xs IH]; simpl; [apply keeps_ret|].
  apply keeps_bind; auto.
Qed.

Lemma keeps_ESP_ERROR_CHECK (err : Z) : keeps R (ESP_ERROR_CHECK err).
Proof. unfold ESP_ERROR_CHECK. apply keeps_if; [apply keeps_ret | apply keeps_abort]. Qed.

End Keeps.

(** Breaks a program into its statements; what is left are the writes to
    the globals and the calls of other functions. *)
Ltac keeps_steps :=
  repeat first
    [ assumption
    | apply keeps_bind; [ try assumption .. | intros ? ]
    | apply keeps_if
    | apply keeps_when
    | apply keeps_repeat_times
    | apply keeps_ESP_ERROR_CHECK
    | apply keeps_ret
    | apply keeps_emit
    | apply keeps_get
    | apply keeps_abort
    | apply keeps_modify; intros ? ].

(** ** The interrupt handler and the wait, in closed form *)

Section MultiTaskSteps.

Import MultiTask.

Lemma isr_eq (woken : bool) (m : machine) :
  esp_task_wdt_isr_user_handler woken m
  = match event_group m with
    | None => Done tt (set_g_watchdog_timeout_occurred true m) []
    | Some g =>
        Done tt
          (set_event_group (Some (set_bits g RECOVERY_ACTIVE_BIT))
             (set_g_watchdog_timeout_occurred true m))
          (EventGroupSetBitsFromISR RECOVERY_ACTIVE_BIT
           :: if woken then [YieldFromISR] else [])
    end.
Proof.
  unfold esp_task_wdt_isr_user_handler, xEventGroupSetBitsFromISR.
  destruct m as [[g|] h1 h2 fl buf cap got]; [destruct woken|]; reflexivity.
Qed.

Lemma wait_bits_recovery (g : Z) :
  wait_bits g RECOVERY_ACTIVE_BIT true false
  = if (Z.land g RECOVERY_ACTIVE_BIT =? 0)%Z then None
    else Some (g, Z.ldiff g RECOVERY_ACTIVE_BIT).
Proof.
  unfold wait_bits. destruct (Z.land g RECOVERY_ACTIVE_BIT =? 0)%Z; reflexivity.
Qed.

Lemma bind_done_unit {St A} (p : Prog St A) (s : St) :
  match p s with
  | Done b s2 tr2 => Done b s2 ([] ++ tr2)%list
  | Blocked => Blocked
  | Aborted => Aborted
  end = p s.
Proof. destruct (p s); reflexivity. Qed.

(** A turn of the loop: blocked while the wake bit is clear; otherwise
    the bit is consumed and the turn runs with the bits that were seen. *)
Lemma recovery_task_iteration_eq (report : list string) (m : machine) :
  recovery_task_iteration report m
  = match event_group m with
    | None => Aborted
    | Some g =>
        if (Z.land g RECOVERY_ACTIVE_BIT =? 0)%Z then Blocked
        else recovery_task_woken g report
               (set_event_group (Some (Z.ldiff g RECOVERY_ACTIVE_BIT)) m)
    end.
Proof.
  unfold recovery_task_iteration, bind, xEventGroupWaitBits.
  destruct (event_group m) as [g|]; [|reflexivity].
  rewrite wait_bits_recovery.
  destruct (Z.land g RECOVERY_ACTIVE_BIT =? 0)%Z; [reflexivity|].
  apply bind_done_unit.
Qed.

Lemma recovery_task_iteration_blocked (report : list string) (m : machine) :
  wake_clear (event_group m) ->
  recovery_task_iteration report m = Blocked \/
  recovery_task_iteration report m = Aborted.
Proof.
  rewrite recovery_task_iteration_eq. unfold wake_clear.
  destruct (event_group m) as [g|]; [|auto].
  intros ->. auto.
Qed.

(** A turn that runs with the flag set is a recovery: it clears the flag
    and reports completion. *)
Lemma recovery_task_iteration_recovers (report : list string) (m : machine) (g : Z) :
  event_group m = Some g ->
  Z.land g RECOVERY_ACTIVE_BIT <> 0%Z ->
  g_watchdog_timeout_occurred m = true ->
  let m1 := feed report
              (reset_scratch (set_event_group (Some (Z.ldiff g RECOVERY_ACTIVE_BIT)) m)) in
  recovery_task_iteration report m
  = Done tt (set_g_watchdog_timeout_occurred false m1) (recovery_trace m1).
Proof.
  intros Heg Hbit Hflag. rewrite recovery_task_iteration_eq, Heg.
  apply Z.eqb_neq in Hbit. rewrite Hbit.
  rewrite recovery_task_woken_eq. fields. rewrite Hbit, Hflag. reflexivity.
Qed.

End MultiTaskSteps.

Section MainSteps.

Import Main.

Lemma main_isr_eq (woken : bool) (m : machine) :
  esp_task_wdt_isr_user_handler woken m
  = match event_group m with
    | None => Done tt (set_g_watchdog_timeout_occurred true m) []
    | Some g =>
        Done tt
          (set_event_group (Some (set_bits g RECOVERY_ACTIVE_BIT))
             (set_g_watchdog_timeout_occurred true m))
          (EventGroupSetBitsFromISR RECOVERY_ACTIVE_BIT
           :: if woken then [YieldFromISR] else [])
    end.
Proof.
  unfold esp_task_wdt_isr_user_handler, xEventGroupSetBitsFromISR.
  destruct m as [[g|] h1 fl]; [destruct woken|]; reflexivity.
Qed.

Lemma main_recovery_task_woken_eq (bits : Z) (m : machine) :
  recovery_task_woken bits m
  = if negb (Z.land bits RECOVERY_ACTIVE_BIT =? 0)%Z && g_watchdog_timeout_occurred m
    then Done tt (set_g_watchdog_timeout_occurred false m) recovery_trace
    else Done tt m [TaskDelayMs 100].
Proof.
  unfold recovery_task_woken.
  destruct (negb (Z.land bits RECOVERY_ACTIVE_BIT =? 0)%Z); [|reflexivity].
  run_prog. destruct (g_watchdog_timeout_occurred m); reflexivity.
Qed.

Lemma main_recovery_task_iteration_eq (m : machine) :
  recovery_task_iteration m
  = match event_group m with
    | None => Aborted
    | Some g =>
        if (Z.land g RECOVERY_ACTIVE_BIT =? 0)%Z then Blocked
        else recovery_task_woken g
               (set_event_group (Some (Z.ldiff g RECOVERY_ACTIVE_BIT)) m)
    end.
Proof.
  unfold recovery_task_iteration, bind, xEventGroupWaitBits.
  destruct (event_group m) as [g|]; [|reflexivity].
  rewrite wait_bits_recovery.
  destruct (Z.land g RECOVERY_ACTIVE_BIT =? 0)%Z; [reflexivity|].
  apply bind_done_unit.
Qed.

End MainSteps.

(** ** What the code paths of the program do to the flag and the wake bit *)

Section MultiTaskActions.

Import MultiTask.

Lemma flag_stays_refl (m : machine) : flag_stays m m.
Proof. intros H. exact H. Qed.

Lemma flag_stays_trans (m1 m2 m3 : machine) :
  flag_stays m1 m2 -> flag_stays m2 m3 -> flag_stays m1 m3.
Proof. unfold flag_stays. auto. Qed.

Lemma wake_stays_clear_refl (m : machine) : wake_stays_clear m m.
Proof. intros H. exact H. Qed.

Lemma wake_stays_clear_trans (m1 m2 m3 : machine) :
  wake_stays_clear m1 m2 -> wake_stays_clear m2 m3 -> wake_stays_clear m1 m3.
Proof. unfold wake_stays_clear. auto. Qed.

Ltac unfold_program :=
  unfold run, app_main, init_gpio, init_watchdog, test_task_register,
    test_2_task_register, test_task_iteration, test_2_task_iteration,
    esp_task_wdt_isr_user_handler, xEventGroupSetBitsFromISR,
    esp_task_wdt_reset_user, ESP_LOGI, ESP_LOGW, ESP_LOGE, vTaskDelay_ms,
    gpio_set_level;
  cbv zeta.

(** Every code path but the recovery task leaves a set flag set. *)
Lemma run_keeps_flag (a : action) :
  is_recovery a = false -> keeps flag_stays (run a).
Proof.
  pose proof flag_stays_refl as Hrefl. pose proof flag_stays_trans as Htrans.
  destruct a; try discriminate; intros _; unfold_program; keeps_steps;
    unfold flag_stays; fields; auto.
Qed.

(** Every code path but the interrupt handler leaves a clear wake bit
    clear; the recovery task does not even start. *)
Lemma run_keeps_wake_clear (a : action) :
  is_isr a = false -> keeps wake_stays_clear (run a).
Proof.
  pose proof wake_stays_clear_refl as Hrefl.
  pose proof wake_stays_clear_trans as Htrans.
  destruct a as [created err | woken | report | err h | err c | err h | err c];
    try discriminate; intros _.
  2: { intros m u m' tr Hrun Hclear. cbn [run] in Hrun.
       destruct (recovery_task_iteration_blocked report m Hclear) as [E | E];
         rewrite E in Hrun; discriminate. }
  all: unfold_program; keeps_steps; unfold wake_stays_clear; fields; auto.
  destruct created; simpl; auto.
Qed.

Lemma run_all_invariant (I : machine -> Prop) (ok : action -> bool) :
  (forall a m u m' tr, ok a = true -> I m -> run a m = Done u m' tr -> I m') ->
  forall acts m m',
    forallb ok acts = true -> I m -> run_all acts m = Some m' -> I m'.
Proof.
  intros Hstep acts. induction acts as [|a acts IH]; intros m m' Hok Hm Hrun.
  - simpl in Hrun. inversion Hrun; subst. exact Hm.
  - simpl in Hok, Hrun. apply andb_true_iff in Hok as [Ha Hacts].
    destruct (run a m) as [u m1 tr| |] eqn:E; try discriminate.
    eapply IH; [exact Hacts | | exact Hrun].
    eapply Hstep; eassumption.
Qed.

End MultiTaskActions.

Section MainActions.

Import Main.





End MainActions.

(** ** The buffer stays a terminated string of its declared size *)

Section Buffer.

Import MultiTask.

Lemma strlen_store_0 (buf : string) : strlen (store 0 NUL buf) = 0.
Proof. unfold strlen. rewrite c_str_store_0. reflexivity. Qed.

Lemma initial_buffer_ok : buffer_ok initial.
Proof. split; [reflexivity | cbv; lia]. Qed.

Lemma reset_scratch_buffer_ok (m : machine) :
  String.length (failed_task_name m) = MAX_TASK_NAME_LEN ->
  buffer_ok (reset_scratch m).
Proof.
  intros Hlen. unfold buffer_ok, reset_scratch. fields.
  rewrite store_length, strlen_store_0, Hlen. split; [reflexivity | cbv; lia].
Qed.

Lemma handler_buffer_ok (msg : string) (m : machine) :
  buffer_ok m -> buffer_ok (twdt_msg_handler msg m).
Proof.
  intros [Hlen Hnul]. split; [apply handler_buffer_length, Hlen|].
  destruct (handler_name msg m) as [E | Hs]; unfold strlen in *.
  - cbv zeta in E. rewrite E. exact Hnul.
  - eapply stored_from_length, Hs.
Qed.

Lemma feed_buffer_ok (report : list string) (m : machine) :
  buffer_ok m -> buffer_ok (feed report m).
Proof.
  revert m. induction report as [|msg report IH]; intros m Hm; simpl; [exact Hm|].
  apply IH, handler_buffer_ok, Hm.
Qed.

End Buffer.

(** * The claims of the specification *)

Section Attribution.

Import MultiTask.

(** C1, counterexample.  The two lines of the example do not yield the
    name: the first line holds the marker of a header, so the handler takes
    it as a header and returns, and the second line is the terminator. *)
Lemma C1_example_lines_are_not_captured :
  attribute [" - test_user"; "0x400d1234 (CPU 0)"] initial
  <> {| captured := true; name := "test_user" |}.
Proof. vm_compute. discriminate. Qed.

(** C1, as the code has it.  The name is captured when it comes as a line
    of its own between the header and the terminator: the three lines
    [" - "], ["test_user"], ["0x400d1234 (CPU 0)"] yield captured = true
    and name = "test_user", from any state of the globals.  The two lines
    of the example yield captured = false and an empty name. *)
Theorem C1_name_comes_on_its_own_line (m : machine) :
  attribute [" - "; "test_user"; "0x400d1234 (CPU 0)"] m
  = {| captured := true; name := "test_user" |} /\
  attribute [" - test_user"; "0x400d1234 (CPU 0)"] m
  = {| captured := false; name := EmptyString |}.
Proof.
  split.
  - unfold attribute, attribution_of.
    change [" - "; "test_user"; "0x400d1234 (CPU 0)"]
      with (lines {| header := " - "; detail := "test_user";
                     terminator := "0x400d1234 (CPU 0)" |}).
    destruct (feed_group {| header := " - "; detail := "test_user";
                            terminator := "0x400d1234 (CPU 0)" |}
                (reset_scratch m) eq_refl) as (_ & -> & ->).
    reflexivity.
  - unfold attribute, attribution_of, feed. cbn [fold_left].
    rewrite (handler_header " - test_user") by reflexivity.
    rewrite (handler_terminator "0x400d1234 (CPU 0)") by reflexivity.
    fields. rewrite c_str_store_0. reflexivity.
Qed.

(** C2, counterexample.  The report made of [" - "] and ["test_user"] has
    no line with the terminator marker, and yet the name is captured and
    the coordinator, woken with the flag set, blinks the LED of
    [test_user]: the handler stores a detail line when it sees it and does
    not wait for the terminator. *)
Lemma C2_captured_without_terminator :
  let report := [" - "; "test_user"] in
  forallb (fun msg => is_null (strstr msg "(CPU")) report = true /\
  attribute report initial = {| captured := true; name := "test_user" |} /\
  exists m' tr,
    recovery_task_woken RECOVERY_ACTIVE_BIT report
      (set_g_watchdog_timeout_occurred true initial) = Done tt m' tr /\
    In (GpioSetLevel STATUS_LED 1) tr.
Proof.
  cbv zeta. split; [reflexivity|]. split; [reflexivity|].
  eexists. eexists. split; [vm_compute; reflexivity|].
  vm_compute. tauto.
Qed.

(** C3, counterexample.  A detail line of 40 characters between a header
    and a terminator is not captured in truncated form: the handler skips
    it, and the result is captured = false with an empty name. *)
Lemma C3_long_detail_line_is_skipped :
  let long := "BBBBBBBBBBBBBBBBBBBBBBBBBBBBBBBBBBBBBBBB" in
  let report := [" -"; long; "(CPU 0)"] in
  is_detail long = true /\
  attribute report initial = {| captured := false; name := EmptyString |} /\
  attribute report initial
  <> {| captured := true; name := substring 0 (MAX_TASK_NAME_LEN - 1) long |}.
Proof.
  cbv zeta. split; [reflexivity|]. split; [reflexivity|].
  vm_compute. discriminate.
Qed.

(** C3, as the code has it.  While the handler is capturing (after a
    header, before the terminator), a detail line shorter than
    MAX_TASK_NAME_LEN is recorded whole as the unit name, and a detail line
    of MAX_TASK_NAME_LEN characters or more is skipped and leaves the
    globals as they were.  Either way the buffer keeps its declared size
    (no write falls outside it) and holds a terminated string; after a
    store its last character is the terminator. *)
Theorem C3_detail_line_stored_whole_or_skipped (msg : string) (m : machine) :
  buffer_ok m ->
  capturing_task_name m = true ->
  is_detail msg = true ->
  let m' := twdt_msg_handler msg m in
  buffer_ok m' /\
  (strlen msg < MAX_TASK_NAME_LEN ->
   task_name_captured m' = true /\
   c_str (failed_task_name m') = c_str msg /\
   load (MAX_TASK_NAME_LEN - 1) (failed_task_name m') = NUL) /\
  (MAX_TASK_NAME_LEN <= strlen msg -> m' = m).
Proof.
  intros Hok Hcap Hd. cbv zeta.
  split; [apply handler_buffer_ok, Hok|]. split.
  - intros Hlen. rewrite handler_stored by assumption. fields.
    rewrite c_str_strncpy by (unfold MAX_TASK_NAME_LEN in *; lia).
    rewrite load_store_same. auto.
  - intros Hlen. apply handler_skipped; assumption.
Qed.

Lemma C3_detail_line_stored_whole_or_skipped_witness :
  let m := twdt_msg_handler " -" initial in
  let m' := twdt_msg_handler "test_user" m in
  buffer_ok m' /\
  task_name_captured m' = true /\
  c_str (failed_task_name m') = "test_user" /\
  load (MAX_TASK_NAME_LEN - 1) (failed_task_name m') = NUL.
Proof.
  cbv zeta.
  assert (Hok : buffer_ok (twdt_msg_handler " -" initial))
    by (split; [reflexivity | cbv; lia]).
  destruct (C3_detail_line_stored_whole_or_skipped "test_user"
              (twdt_msg_handler " -" initial) Hok eq_refl eq_refl)
    as (Hok' & Hshort & _).
  split; [exact Hok'|]. apply Hshort. cbv. lia.
Defined.

(** C4, counterexample.  Two complete groups, the first with the name "A",
    the second with a name of 40 characters that the handler skips.  The
    last group that parsed is the first, but the result does not hold its
    name: the header of the second group has emptied the buffer, and the
    result is captured = true with an empty name. *)
Lemma C4_last_parsed_name_is_not_kept :
  let gs := [ {| header := " -"; detail := "A"; terminator := "(CPU 0)" |};
              {| header := " -";
                 detail := "BBBBBBBBBBBBBBBBBBBBBBBBBBBBBBBBBBBBBBBB";
                 terminator := "(CPU 1)" |} ] in
  forallb complete gs = true /\
  2 <= List.length gs /\
  spec_attribution gs = {| captured := true; name := "A" |} /\
  attribute (report_of gs) initial = {| captured := true; name := EmptyString |} /\
  attribute (report_of gs) initial <> spec_attribution gs.
Proof.
  cbv zeta. split; [reflexivity|]. split; [simpl; lia|].
  split; [reflexivity|]. split; [reflexivity|].
  vm_compute. discriminate.
Qed.

(** C4, as the code has it.  For every report made of complete
    header/detail/terminator groups, the name in the result after the whole
    report is that of the last group alone: the last group's name when its
    detail line is shorter than MAX_TASK_NAME_LEN, and the empty string
    when it is not, since the header of the last group has emptied the
    buffer.  The names of all earlier groups are overwritten and lost;
    they only show in captured, which is true as soon as the detail line
    of some group was stored. *)
Theorem C4_only_the_last_group_names (gs : list group) (g : group) (m : machine) :
  forallb complete (gs ++ [g]) = true ->
  attribute (report_of (gs ++ [g])) m
  = {| captured := existsb parses (gs ++ [g]);
       name := if parses g then c_str (detail g) else EmptyString |}.
Proof.
  intros Hall. rewrite forallb_app in Hall.
  apply andb_true_iff in Hall as [Hgs Hg].
  simpl in Hg. rewrite andb_true_r in Hg.
  unfold attribute, attribution_of.
  rewrite report_of_app, feed_app.
  change (report_of [g]) with (lines g ++ [])%list. rewrite app_nil_r.
  destruct (feed_group g (feed (report_of gs) (reset_scratch m)) Hg)
    as (_ & -> & ->).
  rewrite feed_groups_captured by exact Hgs.
  rewrite existsb_app. simpl. rewrite orb_false_r. reflexivity.
Qed.

Lemma C4_only_the_last_group_names_witness :
  attribute
    [" -"; "test_user"; "(CPU 0)"; " -"; "test_2_user"; "(CPU 1)"] initial
  = {| captured := true; name := "test_2_user" |}.
Proof.
  exact (C4_only_the_last_group_names
           [ {| header := " -"; detail := "test_user"; terminator := "(CPU 0)" |} ]
           {| header := " -"; detail := "test_2_user"; terminator := "(CPU 1)" |}
           initial eq_refl).
Defined.

(** C9.  Whenever the result has captured = true, the recorded name is
    shorter than MAX_TASK_NAME_LEN, and some detail line of the report was
    short enough to be stored.  A detail line of MAX_TASK_NAME_LEN
    characters or more is skipped: the handler leaves the globals as they
    were.  So a report that is one complete group with such a line yields
    captured = false. *)
Theorem C9_long_names_are_skipped (report : list string) (m : machine) :
  (captured (attribute report m) = true ->
   String.length (name (attribute report m)) < MAX_TASK_NAME_LEN /\
   exists msg, In msg report /\ is_detail msg = true /\
               strlen msg < MAX_TASK_NAME_LEN) /\
  (forall msg s,
     is_detail msg = true -> MAX_TASK_NAME_LEN <= strlen msg ->
     twdt_msg_handler msg s = s) /\
  (forall g,
     complete g = true -> MAX_TASK_NAME_LEN <= strlen (detail g) ->
     attribute (lines g) m = {| captured := false; name := EmptyString |}).
Proof.
  split; [|split].
  - unfold attribute, attribution_of. cbn [captured name]. intros Hcap. split.
    + destruct (feed_name report (reset_scratch m)) as [E | Hs].
      * cbv zeta in E. rewrite E. unfold reset_scratch. fields.
        rewrite c_str_store_0. cbv. lia.
      * eapply stored_from_length, Hs.
    + destruct (feed_captured report (reset_scratch m) Hcap) as [E | H];
        [discriminate E | exact H].
  - intros msg s. apply handler_skipped.
  - intros g Hg Hlen. unfold attribute, attribution_of.
    destruct (feed_group g (reset_scratch m) Hg) as (_ & -> & ->).
    unfold parses. apply Nat.ltb_ge in Hlen. rewrite Hlen. reflexivity.
Qed.

Lemma C9_long_names_are_skipped_witness :
  (String.length (name (attribute [" -"; "test_user"; "(CPU 0)"] initial))
   < MAX_TASK_NAME_LEN) /\
  attribute [" -"; "BBBBBBBBBBBBBBBBBBBBBBBBBBBBBBBB"; "(CPU 0)"] initial
  = {| captured := false; name := EmptyString |}.
Proof.
  split.
  - apply (proj1 (C9_long_names_are_skipped [" -"; "test_user"; "(CPU 0)"] initial)).
    reflexivity.
  - apply (proj2 (proj2 (C9_long_names_are_skipped [] initial))
             {| header := " -"; detail := "BBBBBBBBBBBBBBBBBBBBBBBBBBBBBBBB";
                terminator := "(CPU 0)" |}).
    + reflexivity.
    + vm_compute. lia.
Defined.

End Attribution.

Section Coordinator.

(** C5, counterexample.  In [watchdog_multi_task.c] the coordinator that
    wakes with the flag clear has already asked the watchdog for its
    report and reset the scratch state: here a name captured earlier is
    gone after the turn, and the request is in the trace. *)
Lemma C5_spurious_wake_still_diagnoses :
  let m := MultiTask.set_task_name_captured true
             (MultiTask.set_failed_task_name
                (strncpy EmptyString "test_user" MultiTask.MAX_TASK_NAME_LEN)
                MultiTask.initial) in
  MultiTask.g_watchdog_timeout_occurred m = false /\
  MultiTask.attribution_of m
  = {| MultiTask.captured := true; MultiTask.name := "test_user" |} /\
  exists m' tr,
    MultiTask.recovery_task_woken RECOVERY_ACTIVE_BIT [] m = Done tt m' tr /\
    In TaskWdtPrintTriggeredTasks tr /\
    MultiTask.attribution_of m'
    = {| MultiTask.captured := false; MultiTask.name := EmptyString |}.
Proof.
  cbv zeta. split; [reflexivity|]. split; [reflexivity|].
  eexists. eexists. split; [vm_compute; reflexivity|].
  split; [simpl; tauto | reflexivity].
Qed.

(** C5, as the code has it.  A coordinator that wakes with the flag clear
    dispatches no recovery action and leaves the flag clear.  In [main.c]
    it does nothing but the 100 ms delay that ends every turn.  In
    [watchdog_multi_task.c] the diagnosis comes before the test of the
    flag: the scratch state is reset and the report requested and fed to
    the handler, then the turn ends with the same delay. *)
Theorem C5_spurious_wake_dispatches_nothing :
  (forall (bits : Z) (m : Main.machine),
     Main.g_watchdog_timeout_occurred m = false ->
     Main.recovery_task_woken bits m = Done tt m [TaskDelayMs 100]) /\
  (forall (bits : Z) (report : list string) (m : MultiTask.machine),
     MultiTask.g_watchdog_timeout_occurred m = false ->
     let m' := MultiTask.feed report (MultiTask.reset_scratch m) in
     MultiTask.recovery_task_woken bits report m
     = Done tt m' (MultiTask.diagnosis_trace ++ [TaskDelayMs 100])%list /\
     MultiTask.g_watchdog_timeout_occurred m' = false /\
     existsb is_gpio_event (MultiTask.diagnosis_trace ++ [TaskDelayMs 100]) = false).
Proof.
  split.
  - intros bits m Hflag. rewrite main_recovery_task_woken_eq, Hflag, andb_false_r.
    reflexivity.
  - intros bits report m Hflag. cbv zeta.
    rewrite recovery_task_woken_eq. cbv zeta. rewrite Hflag, andb_false_r.
    split; [reflexivity|]. split; [|reflexivity].
    destruct (feed_frame report (MultiTask.reset_scratch m)) as (_ & _ & _ & E).
    cbv zeta in E. rewrite E. exact Hflag.
Qed.

Lemma C5_spurious_wake_dispatches_nothing_witness :
  Main.recovery_task_woken RECOVERY_ACTIVE_BIT Main.initial
  = Done tt Main.initial [TaskDelayMs 100] /\
  MultiTask.recovery_task_woken RECOVERY_ACTIVE_BIT
    [" -"; "test_user"; "(CPU 0)"] MultiTask.initial
  = Done tt
      (MultiTask.feed [" -"; "test_user"; "(CPU 0)"]
         (MultiTask.reset_scratch MultiTask.initial))
      (MultiTask.diagnosis_trace ++ [TaskDelayMs 100])%list.
Proof.
  split.
  - apply (proj1 C5_spurious_wake_dispatches_nothing). reflexivity.
  - apply (proj2 C5_spurious_wake_dispatches_nothing RECOVERY_ACTIVE_BIT
             [" -"; "test_user"; "(CPU 0)"] MultiTask.initial).
    reflexivity.
Defined.



(** C7.  In both programs the interrupt handler always completes, and all
    it does is: set the flag; if there is an event group, post the
    recovery bit to it; and, if that post reports that a task of higher
    priority was woken, ask for a context switch.  Every other global is
    as it was, and the trace holds nothing but the post and the request:
    no log, no allocation, no blocking call. *)
Theorem C7_isr_does_nothing_else :
  (forall (woken : bool) (m : MultiTask.machine),
     exists m' tr,
       MultiTask.esp_task_wdt_isr_user_handler woken m = Done tt m' tr /\
       MultiTask.g_watchdog_timeout_occurred m' = true /\
       MultiTask.event_group m'
       = option_map (fun g => set_bits g RECOVERY_ACTIVE_BIT) (MultiTask.event_group m) /\
       MultiTask.twdt_user_handle m' = MultiTask.twdt_user_handle m /\
       MultiTask.twdt_user_2_handle m' = MultiTask.twdt_user_2_handle m /\
       MultiTask.failed_task_name m' = MultiTask.failed_task_name m /\
       MultiTask.capturing_task_name m' = MultiTask.capturing_task_name m /\
       MultiTask.task_name_captured m' = MultiTask.task_name_captured m /\
       tr = match MultiTask.event_group m with
            | None => []
            | Some _ => EventGroupSetBitsFromISR RECOVERY_ACTIVE_BIT
                        :: if woken then [YieldFromISR] else []
            end /\
       forallb is_isr_event tr = true) /\
  (forall (woken : bool) (m : Main.machine),
     exists m' tr,
       Main.esp_task_wdt_isr_user_handler woken m = Done tt m' tr /\
       Main.g_watchdog_timeout_occurred m' = true /\
       Main.event_group m'
       = option_map (fun g => set_bits g RECOVERY_ACTIVE_BIT) (Main.event_group m) /\
       Main.twdt_user_handle m' = Main.twdt_user_handle m /\
       tr = match Main.event_group m with
            | None => []
            | Some _ => EventGroupSetBitsFromISR RECOVERY_ACTIVE_BIT
                        :: if woken then [YieldFromISR] else []
            end /\
       forallb is_isr_event tr = true).
Proof.
  split; intros woken m.
  - rewrite isr_eq. destruct (MultiTask.event_group m) as [g|] eqn:Heg.
    + eexists. eexists. split; [reflexivity|]. fields.
      repeat (split; [reflexivity|]). destruct woken; reflexivity.
    + eexists. eexists. split; [reflexivity|]. fields. rewrite Heg.
      repeat (split; [reflexivity|]). reflexivity.
  - rewrite main_isr_eq. destruct (Main.event_group m) as [g|] eqn:Heg.
    + eexists. eexists. split; [reflexivity|]. fields.
      repeat (split; [reflexivity|]). destruct woken; reflexivity.
    + eexists. eexists. split; [reflexivity|]. fields. rewrite Heg.
      repeat (split; [reflexivity|]). reflexivity.
Qed.

(** C8.  In both programs [init_watchdog] hands the watchdog a
    configuration with a timeout of 5000 ms and without panic on expiry.
    With that configuration an expiry does not abort the process: all it
    does is what the custom handler does, which leaves the recovery to the
    coordinator. *)
Theorem C8_expiry_never_aborts :
  (trigger_panic MultiTask.twdt_config = false /\
   timeout_ms MultiTask.twdt_config = 5000%Z /\
   (forall m : MultiTask.machine,
      MultiTask.init_watchdog ESP_OK m
      = Done tt m [TaskWdtInit MultiTask.twdt_config;
                   Log LOG_INFO "TWDT initialized with timeout: %d ms" [5000%Z]]) /\
   (forall (woken : bool) (m : MultiTask.machine),
      twdt_expiry MultiTask.twdt_config
        (MultiTask.esp_task_wdt_isr_user_handler woken) m
      = MultiTask.esp_task_wdt_isr_user_handler woken m /\
      twdt_expiry MultiTask.twdt_config
        (MultiTask.esp_task_wdt_isr_user_handler woken) m <> Aborted)) /\
  (trigger_panic Main.twdt_config = false /\
   timeout_ms Main.twdt_config = 5000%Z /\
   (forall m : Main.machine,
      Main.init_watchdog ESP_OK m
      = Done tt m [TaskWdtInit Main.twdt_config;
                   Log LOG_INFO "TWDT initialized with timeout: %d ms" [5000%Z]]) /\
   (forall (woken : bool) (m : Main.machine),
      twdt_expiry Main.twdt_config (Main.esp_task_wdt_isr_user_handler woken) m
      = Main.esp_task_wdt_isr_user_handler woken m /\
      twdt_expiry Main.twdt_config (Main.esp_task_wdt_isr_user_handler woken) m
      <> Aborted)).
Proof.
  split; (split; [reflexivity|]); (split; [reflexivity|]);
    (split; [reflexivity|]); intros woken m; unfold twdt_expiry, bind.
  - rewrite isr_eq.
    destruct (MultiTask.event_group m); simpl; rewrite ?app_nil_r;
      split; [reflexivity | discriminate | reflexivity | discriminate].
  - rewrite main_isr_eq.
    destruct (Main.event_group m); simpl; rewrite ?app_nil_r;
      split; [reflexivity | discriminate | reflexivity | discriminate].
Qed.

(** C10.  If the interrupt handler runs while [event_group] is still
    null, it sets the flag and posts nothing.  From then on, as long as
    the handler does not run again, whatever else runs in the program
    (also [app_main], which creates the group), the flag stays set and no
    turn of the recovery task starts: the task stays blocked in its wait
    (it aborts on the assertion if the group was never created).  Once the
    group exists, the next run of the handler posts the wake, and the turn
    it starts clears the flag in a recovery. *)
Theorem C10_no_wake_before_event_group (woken : bool) (m : MultiTask.machine) :
  MultiTask.event_group m = None ->
  MultiTask.esp_task_wdt_isr_user_handler woken m
  = Done tt (MultiTask.set_g_watchdog_timeout_occurred true m) [] /\
  (forall (acts : list MultiTask.action) (m2 : MultiTask.machine),
     forallb (fun a => negb (is_isr a)) acts = true ->
     MultiTask.run_all acts (MultiTask.set_g_watchdog_timeout_occurred true m)
     = Some m2 ->
     MultiTask.g_watchdog_timeout_occurred m2 = true /\
     forall report,
       MultiTask.recovery_task_iteration report m2 = Blocked \/
       MultiTask.recovery_task_iteration report m2 = Aborted) /\
  (forall (m2 : MultiTask.machine) (g : Z) (woken' : bool) (report : list string),
     MultiTask.event_group m2 = Some g ->
     exists m3 tr3 m4 tr4,
       MultiTask.esp_task_wdt_isr_user_handler woken' m2 = Done tt m3 tr3 /\
       In (EventGroupSetBitsFromISR RECOVERY_ACTIVE_BIT) tr3 /\
       MultiTask.recovery_task_iteration report m3 = Done tt m4 tr4 /\
       MultiTask.g_watchdog_timeout_occurred m4 = false /\
       In (Log LOG_INFO "Recovery complete" []) tr4).
Proof.
  intros Hnull. split; [|split].
  - rewrite isr_eq, Hnull. reflexivity.
  - intros acts m2 Hok Hrun.
    assert (H : MultiTask.g_watchdog_timeout_occurred m2 = true /\
                wake_clear (MultiTask.event_group m2)).
    { eapply (run_all_invariant
                (fun s => MultiTask.g_watchdog_timeout_occurred s = true /\
                          wake_clear (MultiTask.event_group s)));
        [| exact Hok | | exact Hrun].
      - intros a s u s' tr Ha [Hflag Hclear] Hstep.
        apply negb_true_iff in Ha. split.
        + destruct (MultiTask.is_recovery a) eqn:Hrec.
          * destruct a; try discriminate. cbn [MultiTask.run] in Hstep.
            destruct (recovery_task_iteration_blocked report s Hclear) as [E | E];
              rewrite E in Hstep; discriminate.
          * exact (run_keeps_flag a Hrec s u s' tr Hstep Hflag).
        + exact (run_keeps_wake_clear a Ha s u s' tr Hstep Hclear).
      - fields. rewrite Hnull. split; [reflexivity | exact I]. }
    destruct H as [Hflag Hclear]. split; [exact Hflag|].
    intros report. apply recovery_task_iteration_blocked, Hclear.
  - intros m2 g woken' report Heg.
    rewrite isr_eq, Heg.
    eexists. eexists. eexists. eexists.
    split; [reflexivity|]. split; [left; reflexivity|].
    rewrite (recovery_task_iteration_recovers report _
               (set_bits g RECOVERY_ACTIVE_BIT)); [| reflexivity | | reflexivity].
    + split; [reflexivity|]. split; [reflexivity|].
      unfold MultiTask.recovery_trace. rewrite !in_app_iff. simpl. tauto.
    + unfold set_bits. rewrite Z.land_lor_distr_l.
      intros H. apply Z.lor_eq_0_iff in H as [_ H]. discriminate H.
Qed.

Lemma C10_no_wake_before_event_group_witness :
  MultiTask.esp_task_wdt_isr_user_handler true MultiTask.initial
  = Done tt (MultiTask.set_g_watchdog_timeout_occurred true MultiTask.initial) [] /\
  exists m2,
    MultiTask.run_all [MultiTask.AppMain true ESP_OK; MultiTask.TestTask ESP_OK 0]
      (MultiTask.set_g_watchdog_timeout_occurred true MultiTask.initial)
    = Some m2 /\
    MultiTask.g_watchdog_timeout_occurred m2 = true /\
    MultiTask.recovery_task_iteration [" -"; "test_user"; "(CPU 0)"] m2 = Blocked.
Proof.
  destruct (C10_no_wake_before_event_group true MultiTask.initial eq_refl)
    as (Hisr & Hquiet & _).
  split; [exact Hisr|].
  eexists. split; [vm_compute; reflexivity|].
  split; [|reflexivity].
  eapply (Hquiet [MultiTask.AppMain true ESP_OK; MultiTask.TestTask ESP_OK 0]).
  - reflexivity.
  - vm_compute. reflexivity.
Defined.

End Coordinator.

(** * Further properties of the code *)

(** ** The monitored tasks *)

Section MonitoredTasks.

(** Case analysis over a counter known to lie in 0..30. *)
Ltac split_nat n k :=
  match k with
  | O => idtac
  | S ?k' => destruct n as [|n]; [ | split_nat n k' ]
  end.

Ltac each_counter c :=
  let n := fresh "n" in
  let Hn := fresh "Hn" in
  let E := fresh "E" in
  assert (E : c = Z.of_nat (Z.to_nat c)) by lia;
  assert (Hn : (Z.to_nat c <= 30)%nat) by lia;
  generalize dependent (Z.to_nat c); intros n E Hn; subst c;
  split_nat n 31%nat;
  [ .. | exfalso; lia ].

(** X1.  A turn of [test_task] in [watchdog_multi_task.c], entered with
    the counter in 0..30: it leaves the counter at (counter + 1) mod 31,
    so the counter never leaves that range, changes no global, writes the
    parity of the new counter to STATUS_LED and delays 1000 ms.  It calls
    the reset of its own watchdog user exactly in the turns of [resets_on]
    and aborts exactly when that call fails; in a turn without a reset the
    platform's answer plays no role. *)
Theorem X1_test_task_turn (err counter : Z) (m : MultiTask.machine) :
  (0 <= counter <= 30)%Z ->
  (resets_on counter = true -> err <> ESP_OK ->
   MultiTask.test_task_iteration err counter m = Aborted) /\
  (resets_on counter = false \/ err = ESP_OK ->
   exists tr,
     MultiTask.test_task_iteration err counter m
     = Done ((counter + 1) mod 31)%Z m tr /\
     filter is_reset_event tr
     = (if resets_on counter
        then [TaskWdtResetUser (MultiTask.twdt_user_handle m)] else []) /\
     filter is_gpio_event tr
     = [GpioSetLevel MultiTask.STATUS_LED (((counter + 1) mod 31) mod 2)%Z] /\
     filter (fun e => match e with TaskDelayMs _ => true | _ => false end) tr
     = [TaskDelayMs 1000]).
Proof.
  intros Hc. split.
  - intros Hr Herr. apply Z.eqb_neq in Herr.
    unfold MultiTask.test_task_iteration, MultiTask.esp_task_wdt_reset_user,
      ESP_ERROR_CHECK. rewrite Herr. clear Herr.
    each_counter counter; try discriminate Hr; reflexivity.
  - intros H.
    assert (Hb : resets_on counter = false \/ (err =? ESP_OK)%Z = true)
      by (destruct H as [H | ->]; auto).
    clear H.
    unfold MultiTask.test_task_iteration, MultiTask.esp_task_wdt_reset_user,
      ESP_ERROR_CHECK.
    destruct Hb as [Hr | ->].
    + destruct (err =? ESP_OK)%Z;
        each_counter counter; try discriminate Hr;
        (eexists; split; [reflexivity|]; repeat split; reflexivity).
    + each_counter counter;
        (eexists; split; [reflexivity|]; repeat split; reflexivity).
Qed.

Lemma X1_test_task_turn_witness :
  MultiTask.test_task_iteration 1 2 MultiTask.initial = Aborted /\
  exists tr,
    MultiTask.test_task_iteration 1 5 MultiTask.initial
    = Done 6%Z MultiTask.initial tr.
Proof.
  split.
  - apply (proj1 (X1_test_task_turn 1 2 MultiTask.initial ltac:(lia)));
      [reflexivity | discriminate].
  - destruct (proj2 (X1_test_task_turn 1 5 MultiTask.initial ltac:(lia))
                (or_introl eq_refl)) as (tr & H & _).
    exists tr. exact H.
Defined.

(** X2.  The loop of [test_task] in [watchdog_multi_task.c] has period
    31: from any counter in 0..30, 31 turns whose resets succeed bring
    the counter back, change no global and reset the watchdog 13 times.
    In every such period the task lets more delay pass without a reset
    than WATCHDOG_TIMEOUT_MS: it does starve the watchdog. *)
Theorem X2_test_task_period (counter : Z) (m : MultiTask.machine) :
  (0 <= counter <= 30)%Z ->
  exists tr,
    test_task_turns (List.repeat ESP_OK 31) counter m = Done counter m tr /\
    List.length (filter is_reset_event tr) = 13 /\
    (WATCHDOG_TIMEOUT_MS < longest_silence tr)%Z.
Proof.
  intros Hc.
  each_counter counter;
    (eexists; split; [vm_compute; reflexivity|]; split; vm_compute; reflexivity).
Qed.

Lemma X2_test_task_period_witness :
  exists tr,
    test_task_turns (List.repeat ESP_OK 31) 25 MultiTask.initial
    = Done 25%Z MultiTask.initial tr /\
    (WATCHDOG_TIMEOUT_MS < longest_silence tr)%Z.
Proof.
  destruct (X2_test_task_period 25 MultiTask.initial ltac:(lia))
    as (tr & H & _ & Hs).
  exists tr. split; [exact H | exact Hs].
Defined.

(** X3.  A turn of [test_2_task], entered with the counter in 0..30: the
    same schedule as [test_task], on its own resources.  It leaves the
    counter at (counter + 1) mod 31 and the globals as they were, resets
    the watchdog user of [twdt_user_2_handle] (never that of [test_task])
    in the turns of [resets_on], writes to STATUS_LED_2 only and delays
    1500 ms; it aborts exactly when a reset it calls fails. *)
Theorem X3_test_2_task_turn (err counter : Z) (m : MultiTask.machine) :
  (0 <= counter <= 30)%Z ->
  (resets_on counter = true -> err <> ESP_OK ->
   MultiTask.test_2_task_iteration err counter m = Aborted) /\
  (resets_on counter = false \/ err = ESP_OK ->
   exists tr,
     MultiTask.test_2_task_iteration err counter m
     = Done ((counter + 1) mod 31)%Z m tr /\
     filter is_reset_event tr
     = (if resets_on counter
        then [TaskWdtResetUser (MultiTask.twdt_user_2_handle m)] else []) /\
     filter is_gpio_event tr
     = [GpioSetLevel MultiTask.STATUS_LED_2 (((counter + 1) mod 31) mod 2)%Z] /\
     filter (fun e => match e with TaskDelayMs _ => true | _ => false end) tr
     = [TaskDelayMs 1500]).
Proof.
  intros Hc. split.
  - intros Hr Herr. apply Z.eqb_neq in Herr.
    unfold MultiTask.test_2_task_iteration, MultiTask.esp_task_wdt_reset_user,
      ESP_ERROR_CHECK. rewrite Herr. clear Herr.
    each_counter counter; try discriminate Hr; reflexivity.
  - intros H.
    assert (Hb : resets_on counter = false \/ (err =? ESP_OK)%Z = true)
      by (destruct H as [H | ->]; auto).
    clear H.
    unfold MultiTask.test_2_task_iteration, MultiTask.esp_task_wdt_reset_user,
      ESP_ERROR_CHECK.
    destruct Hb as [Hr | ->].
    + destruct (err =? ESP_OK)%Z;
        each_counter counter; try discriminate Hr;
        (eexists; split; [reflexivity|]; repeat split; reflexivity).
    + each_counter counter;
        (eexists; split; [reflexivity|]; repeat split; reflexivity).
Qed.

Lemma X3_test_2_task_turn_witness :
  MultiTask.test_2_task_iteration 1 0 MultiTask.initial = Aborted /\
  exists tr,
    MultiTask.test_2_task_iteration 1 5 MultiTask.initial
    = Done 6%Z MultiTask.initial tr.
Proof.
  split.
  - apply (proj1 (X3_test_2_task_turn 1 0 MultiTask.initial ltac:(lia)));
      [reflexivity | discriminate].
  - destruct (proj2 (X3_test_2_task_turn 1 5 MultiTask.initial ltac:(lia))
                (or_introl eq_refl)) as (tr & H & _).
    exists tr. exact H.
Defined.

(** X4.  The loop of [test_2_task] has period 31 like that of
    [test_task]: 31 turns whose resets succeed bring the counter back
    with 13 resets, and in every period more delay passes without a reset
    than WATCHDOG_TIMEOUT_MS. *)
Theorem X4_test_2_task_period (counter : Z) (m : MultiTask.machine) :
  (0 <= counter <= 30)%Z ->
  exists tr,
    test_2_task_turns (List.repeat ESP_OK 31) counter m = Done counter m tr /\
    List.length (filter is_reset_event tr) = 13 /\
    (WATCHDOG_TIMEOUT_MS < longest_silence tr)%Z.
Proof.
  intros Hc.
  each_counter counter;
    (eexists; split; [vm_compute; reflexivity|]; split; vm_compute; reflexivity).
Qed.

Lemma X4_test_2_task_period_witness :
  exists tr,
    test_2_task_turns (List.repeat ESP_OK 31) 0 MultiTask.initial
    = Done 0%Z MultiTask.initial tr /\
    (WATCHDOG_TIMEOUT_MS < longest_silence tr)%Z.
Proof.
  destruct (X4_test_2_task_period 0 MultiTask.initial ltac:(lia))
    as (tr & H & _ & Hs).
  exists tr. split; [exact H | exact Hs].
Defined.

(** X5.  The loop of [test_task] in [main.c]: a turn entered with the
    counter in 0..30 and a successful platform leaves the counter at
    (counter + 1) mod 31 and the globals as they were; 31 such turns bring
    the counter back with 13 resets, and in every period more delay passes
    without a reset than WATCHDOG_TIMEOUT_MS.  A turn that calls the reset
    aborts when the call fails. *)
Theorem X5_main_test_task_loop (counter : Z) (m : Main.machine) :
  (0 <= counter <= 30)%Z ->
  (exists tr,
     Main.test_task_iteration ESP_OK counter m
     = Done ((counter + 1) mod 31)%Z m tr /\
     filter is_reset_event tr
     = (if resets_on counter
        then [TaskWdtResetUser (Main.twdt_user_handle m)] else [])) /\
  (forall err, resets_on counter = true -> err <> ESP_OK ->
     Main.test_task_iteration err counter m = Aborted) /\
  (exists tr,
     main_test_task_turns (List.repeat ESP_OK 31) counter m = Done counter m tr /\
     List.length (filter is_reset_event tr) = 13 /\
     (WATCHDOG_TIMEOUT_MS < longest_silence tr)%Z).
Proof.
  intros Hc. split; [|split].
  - each_counter counter; (eexists; split; reflexivity).
  - intros err Hr Herr. apply Z.eqb_neq in Herr.
    unfold Main.test_task_iteration, Main.esp_task_wdt_reset_user,
      ESP_ERROR_CHECK. rewrite Herr. clear Herr.
    each_counter counter; try discriminate Hr; reflexivity.
  - each_counter counter;
      (eexists; split; [vm_compute; reflexivity|]; split; vm_compute; reflexivity).
Qed.

Lemma X5_main_test_task_loop_witness :
  exists tr,
    main_test_task_turns (List.repeat ESP_OK 31) 7 Main.initial
    = Done 7%Z Main.initial tr /\
    (WATCHDOG_TIMEOUT_MS < longest_silence tr)%Z.
Proof.
  destruct (X5_main_test_task_loop 7 Main.initial ltac:(lia))
    as (_ & _ & tr & H & _ & Hs).
  exists tr. split; [exact H | exact Hs].
Defined.

(** X18.  Registration and reset agree on the handle.  Each monitored
    task stores the handle the watchdog gives it in its own global and
    leaves the other task's handle alone; in a turn that resets, each
    task then resets exactly the user it registered.  A registration that
    fails aborts the task. *)
Theorem X18_each_task_resets_its_own_user
    (h1 h2 counter : Z) (m : MultiTask.machine) :
  (0 <= counter <= 30)%Z ->
  resets_on counter = true ->
  exists m' tr0 tr1 tr2,
    MultiTask.run_all [MultiTask.TestTaskRegister ESP_OK h1;
                       MultiTask.Test2TaskRegister ESP_OK h2] m = Some m' /\
    m' = MultiTask.set_twdt_user_2_handle h2 (MultiTask.set_twdt_user_handle h1 m) /\
    MultiTask.test_2_task_register ESP_OK h2 m
    = Done tt (MultiTask.set_twdt_user_2_handle h2 m) tr0 /\
    MultiTask.test_task_iteration ESP_OK counter m'
    = Done ((counter + 1) mod 31)%Z m' tr1 /\
    filter is_reset_event tr1 = [TaskWdtResetUser h1] /\
    MultiTask.test_2_task_iteration ESP_OK counter m'
    = Done ((counter + 1) mod 31)%Z m' tr2 /\
    filter is_reset_event tr2 = [TaskWdtResetUser h2] /\
    (forall err, err <> ESP_OK ->
       MultiTask.test_task_register err h1 m = Aborted /\
       MultiTask.test_2_task_register err h2 m = Aborted).
Proof.
  intros Hc Hr.
  assert (Hab : forall err, err <> ESP_OK ->
            MultiTask.test_task_register err h1 m = Aborted /\
            MultiTask.test_2_task_register err h2 m = Aborted).
  { intros err Herr. apply Z.eqb_neq in Herr.
    unfold MultiTask.test_task_register, MultiTask.test_2_task_register,
      ESP_ERROR_CHECK. rewrite Herr. split; reflexivity. }
  each_counter counter; try discriminate Hr;
    (eexists; eexists; eexists; eexists;
     split; [reflexivity|]; split; [reflexivity|]; split; [reflexivity|];
     split; [reflexivity|]; split; [reflexivity|]; split; [reflexivity|];
     split; [reflexivity | exact Hab]).
Qed.

Lemma X18_each_task_resets_its_own_user_witness :
  exists m' tr1,
    MultiTask.run_all [MultiTask.TestTaskRegister ESP_OK 11;
                       MultiTask.Test2TaskRegister ESP_OK 22] MultiTask.initial
    = Some m' /\
    MultiTask.test_task_iteration ESP_OK 0 m' = Done 1%Z m' tr1 /\
    filter is_reset_event tr1 = [TaskWdtResetUser 11].
Proof.
  destruct (X18_each_task_resets_its_own_user 11 22 0 MultiTask.initial
              ltac:(lia) eq_refl)
    as (m' & tr0 & tr1 & tr2 & H1 & _ & _ & H2 & H3 & _).
  exists m', tr1. split; [exact H1|]. split; [exact H2 | exact H3].
Defined.

End MonitoredTasks.

(** ** The attributor as a machine over three fields *)

Section ScratchMachine.

Import MultiTask.

Lemma scratch_of_handler (msg : string) (m : machine) :
  scratch_of (twdt_msg_handler msg m) = scratch_step msg (scratch_of m).
Proof.
  unfold scratch_step. destruct (is_header msg) eqn:Hh.
  - rewrite handler_header by exact Hh. unfold scratch_of. fields.
    rewrite c_str_store_0. reflexivity.
  - destruct (is_detail msg) eqn:Hd.
    + unfold scratch_of at 2. cbn [s_capturing].
      destruct (capturing_task_name m) eqn:Hc.
      * destruct (Nat.ltb_spec (strlen msg) MAX_TASK_NAME_LEN) as [Hlen | Hlen].
        -- rewrite handler_stored by assumption. unfold scratch_of. fields.
           rewrite c_str_strncpy by (unfold MAX_TASK_NAME_LEN in *; lia).
           rewrite Hc. reflexivity.
        -- rewrite handler_skipped by assumption. reflexivity.
      * rewrite handler_idle by assumption. reflexivity.
    + assert (Ht : is_terminator msg = true).
      { unfold is_terminator, is_detail in *. rewrite Hh in *. simpl in *.
        rewrite Hd. reflexivity. }
      rewrite handler_terminator by exact Ht. reflexivity.
Qed.

Lemma scratch_of_feed (report : list string) (m : machine) :
  scratch_of (feed report m) = scratch_feed report (scratch_of m).
Proof.
  revert m. induction report as [|msg report IH]; intros m; [reflexivity|].
  simpl. rewrite IH, scratch_of_handler. reflexivity.
Qed.

Lemma scratch_of_reset (m : machine) : scratch_of (reset_scratch m) = scratch_reset.
Proof.
  unfold scratch_of, reset_scratch, scratch_reset. fields.
  rewrite c_str_store_0. reflexivity.
Qed.

Lemma attribute_scratch (report : list string) (m : machine) :
  attribute report m = result_of (scratch_feed report scratch_reset).
Proof.
  unfold attribute. rewrite <- scratch_of_reset with (m := m), <- scratch_of_feed.
  reflexivity.
Qed.

Lemma scratch_feed_app (r1 r2 : list string) (s : scratch) :
  scratch_feed (r1 ++ r2) s = scratch_feed r2 (scratch_feed r1 s).
Proof. unfold scratch_feed. apply fold_left_app. Qed.

(** Lines without a header, outside capturing: nothing happens. *)
Lemma scratch_feed_idle (report : list string) (s : scratch) :
  Forall (fun msg => is_header msg = false) report ->
  s_capturing s = false ->
  scratch_feed report s = s.
Proof.
  intros Hall Hc. induction Hall as [|msg report Hmsg _ IH]; [reflexivity|].
  unfold scratch_feed in *. cbn [fold_left].
  assert (E : scratch_step msg s = s); [|rewrite E; exact IH].
  unfold scratch_step. rewrite Hmsg, Hc. cbn [andb].
  destruct (is_detail msg); [reflexivity|].
  destruct s as [cap got n]; simpl in *; subst cap. reflexivity.
Qed.

(** Detail lines while capturing: the last one that fits is the name. *)
Lemma scratch_feed_details (ds : list string) (s : scratch) :
  Forall (fun msg => is_detail msg = true) ds ->
  s_capturing s = true ->
  scratch_feed ds s
  = {| s_capturing := true;
       s_captured := s_captured s || existsb fits ds;
       s_name := match last_short ds with
                 | Some d => c_str d
                 | None => s_name s
                 end |}.
Proof.
  intros Hall. revert s. induction Hall as [|d ds Hd _ IH]; intros s Hc.
  - simpl. rewrite orb_false_r. destruct s; simpl in *; subst. reflexivity.
  - assert (Hh : is_header d = false).
    { unfold is_detail in Hd. apply andb_true_iff in Hd as [Hd _].
      apply negb_true_iff in Hd. exact Hd. }
    change (scratch_feed (d :: ds) s) with (scratch_feed ds (scratch_step d s)).
    unfold scratch_step. rewrite Hh, Hd, Hc. cbn [andb existsb last_short].
    unfold fits at 1.
    destruct (Nat.ltb (strlen d) MAX_TASK_NAME_LEN) eqn:Hfit.
    + rewrite IH by reflexivity. cbn [s_captured s_name].
      rewrite orb_true_r. simpl. destruct (last_short ds); reflexivity.
    + rewrite IH by exact Hc. simpl. destruct (last_short ds); reflexivity.
Qed.

Lemma scratch_step_header (msg : string) (s : scratch) :
  is_header msg = true ->
  scratch_step msg s
  = {| s_capturing := true; s_captured := s_captured s; s_name := EmptyString |}.
Proof. intros Hh. unfold scratch_step. rewrite Hh. reflexivity. Qed.

Lemma scratch_step_terminator (msg : string) (s : scratch) :
  is_terminator msg = true ->
  scratch_step msg s
  = {| s_capturing := false; s_captured := s_captured s; s_name := s_name s |}.
Proof.
  intros Ht. unfold scratch_step.
  destruct (is_terminator_inv msg Ht) as [Hh Hc].
  unfold is_header, is_detail, is_header. rewrite Hh, Hc. reflexivity.
Qed.

Lemma feed_groups_capturing (gs : list group) (m : machine) :
  forallb complete gs = true ->
  capturing_task_name m = false ->
  capturing_task_name (feed (report_of gs) m) = false.
Proof.
  revert m. induction gs as [|g gs IH]; intros m Hall Hc; [exact Hc|].
  simpl in Hall. apply andb_true_iff in Hall as [Hg Hgs].
  change (report_of (g :: gs)) with (lines g ++ report_of gs)%list.
  rewrite feed_app. apply IH; [exact Hgs|].
  apply (feed_group g m Hg).
Qed.

End ScratchMachine.

(** ** The attributor over whole reports *)

Section Reports.

Import MultiTask.

(** X6.  All that the handler does shows in the two booleans and the C
    string in the buffer, on which it acts as the machine [scratch_step];
    what lies in the buffer behind the terminator plays no role.  So the
    result of a report does not depend on the globals the diagnosis
    started from: no name of an earlier cycle can show in it. *)
Theorem X6_attribution_depends_on_the_report_only
    (report : list string) (m m' : machine) :
  scratch_of (feed report m) = scratch_feed report (scratch_of m) /\
  attribute report m = attribute report m'.
Proof.
  split; [apply scratch_of_feed|].
  rewrite !attribute_scratch. reflexivity.
Qed.

(** X7.  Lines outside the groups are ignored: for a report of complete
    groups, lines without the header marker before the first group or
    after the last change nothing in the result. *)
Theorem X7_lines_outside_groups_are_ignored
    (before after : list string) (gs : list group) (m : machine) :
  Forall (fun msg => is_header msg = false) before ->
  Forall (fun msg => is_header msg = false) after ->
  forallb complete gs = true ->
  attribute (before ++ report_of gs ++ after) m = attribute (report_of gs) m.
Proof.
  intros Hb Ha Hgs. unfold attribute.
  rewrite !feed_app.
  rewrite (feed_no_header before) by (try exact Hb; reflexivity).
  rewrite (feed_no_header after); [reflexivity | exact Ha |].
  apply feed_groups_capturing; [exact Hgs | reflexivity].
Qed.

Lemma X7_lines_outside_groups_are_ignored_witness :
  attribute
    (["Task watchdog got triggered"]
     ++ report_of [ {| header := " -"; detail := "test_user"; terminator := "(CPU 0)" |} ]
     ++ ["test_2_user"; "(CPU 1)"]) initial
  = attribute
      (report_of [ {| header := " -"; detail := "test_user"; terminator := "(CPU 0)" |} ])
      initial.
Proof.
  apply X7_lines_outside_groups_are_ignored.
  - repeat constructor.
  - repeat constructor.
  - reflexivity.
Defined.

(** X8.  A header followed by any number of detail lines and a
    terminator: the name is the last detail line that fits the buffer
    (each stored line overwrites the one before), captured tells whether
    some line fitted, and without any the name is empty. *)
Theorem X8_last_fitting_detail_line_wins
    (h t : string) (ds : list string) (m : machine) :
  is_header h = true ->
  Forall (fun msg => is_detail msg = true) ds ->
  is_terminator t = true ->
  attribute (h :: ds ++ [t]) m
  = {| captured := existsb fits ds;
       name := match last_short ds with
               | Some d => c_str d
               | None => EmptyString
               end |}.
Proof.
  intros Hh Hds Ht. rewrite attribute_scratch.
  change (h :: ds ++ [t])%list with ([h] ++ ds ++ [t])%list.
  rewrite !scratch_feed_app.
  change (scratch_feed [h] scratch_reset) with (scratch_step h scratch_reset).
  rewrite scratch_step_header by exact Hh.
  rewrite (scratch_feed_details ds) by (try exact Hds; reflexivity).
  match goal with
  | |- result_of (scratch_feed [t] ?s) = _ =>
      change (scratch_feed [t] s) with (scratch_step t s)
  end.
  rewrite scratch_step_terminator by exact Ht. reflexivity.
Qed.

Lemma X8_last_fitting_detail_line_wins_witness :
  attribute
    [" - "; "test_user"; " ("; "BBBBBBBBBBBBBBBBBBBBBBBBBBBBBBBBBBBBBBBB";
     "0x400d1234 (CPU 0)"] initial
  = {| captured := true; name := " (" |}.
Proof.
  apply (X8_last_fitting_detail_line_wins " - " "0x400d1234 (CPU 0)"
           ["test_user"; " ("; "BBBBBBBBBBBBBBBBBBBBBBBBBBBBBBBBBBBBBBBB"] initial).
  - reflexivity.
  - repeat constructor.
  - reflexivity.
Defined.

(** X9.  A line that holds the header marker is a header even when it
    also holds a name or the terminator marker: the handler returns
    before it looks at either.  So a report in which every line holds the
    header marker captures nothing, however many lines it has. *)
Theorem X9_header_lines_capture_nothing (report : list string) (m : machine) :
  Forall (fun msg => is_header msg = true) report ->
  attribute report m = {| captured := false; name := EmptyString |}.
Proof.
  intros Hall. rewrite attribute_scratch.
  assert (H : forall s, s_captured s = false -> s_name s = EmptyString ->
                        result_of (scratch_feed report s)
                        = {| captured := false; name := EmptyString |}).
  { induction Hall as [|msg report Hmsg _ IH]; intros s Hc Hn.
    - unfold result_of. simpl. rewrite Hc, Hn. reflexivity.
    - change (scratch_feed (msg :: report) s)
        with (scratch_feed report (scratch_step msg s)).
      rewrite scratch_step_header by exact Hmsg. apply IH; [exact Hc | reflexivity]. }
  apply H; reflexivity.
Qed.

Lemma X9_header_lines_capture_nothing_witness :
  attribute [" - test_user (CPU 0)"; " - test_2_user (CPU 1)"] initial
  = {| captured := false; name := EmptyString |}.
Proof.
  apply X9_header_lines_capture_nothing. repeat constructor.
Defined.

End Reports.

(** ** Reports without a terminator *)

Section NoTerminator.

Import MultiTask.

(** Without a terminator line the handler, once capturing, never stops:
    what is captured is decided by the lines after the first header. *)
Lemma scratch_feed_no_terminator (report : list string) (s : scratch) :
  Forall (fun msg => is_null (strstr msg "(CPU") = true) report ->
  let seen := if s_capturing s then report else after_first_header report in
  s_captured (scratch_feed report s)
  = s_captured s || existsb fitting_detail seen /\
  (s_name s = EmptyString -> existsb fitting_detail seen = false ->
   s_name (scratch_feed report s) = EmptyString).
Proof.
  intros Hall. revert s. induction Hall as [|msg report Hmsg _ IH]; intros s.
  - cbv zeta. destruct (s_capturing s); simpl; rewrite orb_false_r; auto.
  - change (scratch_feed (msg :: report) s)
      with (scratch_feed report (scratch_step msg s)).
    destruct (is_header msg) eqn:Hh.
    + rewrite scratch_step_header by exact Hh.
      destruct (IH {| s_capturing := true; s_captured := s_captured s;
                      s_name := EmptyString |}) as [Hc Hn].
      cbv zeta in *. cbn [s_capturing s_captured s_name] in Hc, Hn.
      assert (Hseen : existsb fitting_detail
                        (if s_capturing s then msg :: report
                         else after_first_header (msg :: report))
                      = existsb fitting_detail report).
      { assert (Efd : fitting_detail msg = false)
          by (unfold fitting_detail, is_detail; rewrite Hh; reflexivity).
        destruct (s_capturing s); cbn [after_first_header existsb].
        - rewrite Efd. reflexivity.
        - rewrite Hh. reflexivity. }
      rewrite Hseen. split; [exact Hc | intros _; apply Hn; reflexivity].
    + assert (Hd : is_detail msg = true)
        by (unfold is_detail; rewrite Hh, Hmsg; reflexivity).
      unfold scratch_step. rewrite Hh, Hd.
      destruct (s_capturing s) eqn:Hcap; cbn [andb].
      * destruct (Nat.ltb (strlen msg) MAX_TASK_NAME_LEN) eqn:Hfit.
        -- destruct (IH {| s_capturing := true; s_captured := true;
                           s_name := c_str msg |}) as [Hc _].
           cbv zeta in *. cbn [s_capturing s_captured] in Hc.
           assert (Efd : fitting_detail msg = true)
             by (unfold fitting_detail, fits; rewrite Hd, Hfit; reflexivity).
           cbn [existsb]. rewrite Efd. cbn [orb] in *. rewrite orb_true_r.
           split; [exact Hc | intros _ H; discriminate H].
        -- destruct (IH s) as [Hc Hn]. cbv zeta in *. rewrite Hcap in Hc, Hn.
           assert (Efd : fitting_detail msg = false)
             by (unfold fitting_detail, fits; rewrite Hd, Hfit; reflexivity).
           cbn [existsb]. rewrite Efd. cbn [orb].
           split; [exact Hc | exact Hn].
      * destruct (IH s) as [Hc Hn]. cbv zeta in *. rewrite Hcap in Hc, Hn.
        cbn [after_first_header]. rewrite Hh. split; [exact Hc | exact Hn].
Qed.

(** C2, as the code has it.  The coordinator completes its turn without
    aborting on every report.  If the report has no line with the
    terminator marker, captured is false exactly when no detail line
    short enough for the buffer comes after the report's first header
    line (and true when one does: the handler stores a detail line
    without waiting for the terminator).  When captured is false the name
    is empty, and the coordinator woken with the flag set clears the flag
    and runs the unattributed recovery: it logs the recovery, drives no
    LED and logs completion. *)
Theorem C2_without_terminator_capture_needs_a_fitting_detail
    (report : list string) (bits : Z) (m : machine) :
  (exists m' tr, recovery_task_woken bits report m = Done tt m' tr) /\
  (Forall (fun msg => is_null (strstr msg "(CPU") = true) report ->
   captured (attribute report m)
   = existsb fitting_detail (after_first_header report) /\
   (existsb fitting_detail (after_first_header report) = false ->
    attribute report m = {| captured := false; name := EmptyString |} /\
    (Z.land bits RECOVERY_ACTIVE_BIT <> 0%Z ->
     g_watchdog_timeout_occurred m = true ->
     exists m',
       recovery_task_woken bits report m
       = Done tt m'
           (diagnosis_trace
            ++ [Log LOG_ERROR "Custom TWDT handler was invoked! Task failed to reset the watchdog in time." [];
                Log LOG_ERROR "Performing recovery actions..." [];
                Log LOG_INFO "Recovery complete" [];
                TaskDelayMs 100])%list /\
       task_name_captured m' = false /\
       g_watchdog_timeout_occurred m' = false))).
Proof.
  split.
  - rewrite recovery_task_woken_eq. cbv zeta.
    destruct (negb (Z.land bits RECOVERY_ACTIVE_BIT =? 0)%Z
              && g_watchdog_timeout_occurred m);
      eexists; eexists; reflexivity.
  - intros Hall.
    destruct (scratch_feed_no_terminator report scratch_reset Hall) as [Hc Hn].
    cbv zeta in Hc, Hn. cbn [s_capturing s_captured s_name scratch_reset orb] in Hc, Hn.
    rewrite attribute_scratch. unfold result_of. cbn [captured].
    split; [exact Hc|]. intros Hnone.
    assert (Hres : {| captured := s_captured (scratch_feed report scratch_reset);
                      name := s_name (scratch_feed report scratch_reset) |}
                   = {| captured := false; name := EmptyString |})
      by (rewrite Hc, Hnone, Hn by auto; reflexivity).
    split; [exact Hres|].
    intros Hbit Hflag. apply Z.eqb_neq in Hbit.
    rewrite recovery_task_woken_eq. cbv zeta. rewrite Hbit, Hflag. cbn [negb andb].
    assert (Hcap : task_name_captured (feed report (reset_scratch m)) = false).
    { pose proof (attribute_scratch report m) as E. unfold result_of in E.
      rewrite Hres in E. unfold attribute, attribution_of in E.
      inversion E. reflexivity. }
    eexists. split.
    + unfold recovery_trace, recovery_actions. rewrite Hcap. reflexivity.
    + split; [fields; exact Hcap | reflexivity].
Qed.

Lemma C2_without_terminator_capture_needs_a_fitting_detail_witness :
  let report := ["stray"; " - "; "BBBBBBBBBBBBBBBBBBBBBBBBBBBBBBBBBBBBBBBB"] in
  attribute report initial = {| captured := false; name := EmptyString |} /\
  exists m',
    recovery_task_woken RECOVERY_ACTIVE_BIT report
      (set_g_watchdog_timeout_occurred true initial)
    = Done tt m'
        (diagnosis_trace
         ++ [Log LOG_ERROR "Custom TWDT handler was invoked! Task failed to reset the watchdog in time." [];
             Log LOG_ERROR "Performing recovery actions..." [];
             Log LOG_INFO "Recovery complete" [];
             TaskDelayMs 100])%list /\
    task_name_captured m' = false /\
    g_watchdog_timeout_occurred m' = false.
Proof.
  cbv zeta.
  assert (Hall : Forall (fun msg => is_null (strstr msg "(CPU") = true)
                   ["stray"; " - "; "BBBBBBBBBBBBBBBBBBBBBBBBBBBBBBBBBBBBBBBB"])
    by (repeat constructor).
  split.
  - apply (proj2 (C2_without_terminator_capture_needs_a_fitting_detail
                    _ RECOVERY_ACTIVE_BIT initial) Hall).
    reflexivity.
  - apply (proj2 (C2_without_terminator_capture_needs_a_fitting_detail
                    _ RECOVERY_ACTIVE_BIT
                    (set_g_watchdog_timeout_occurred true initial)) Hall).
    + reflexivity.
    + vm_compute. discriminate.
    + reflexivity.
Defined.

End NoTerminator.

(** ** The recovery action follows the name *)

Section Dispatch.

Import MultiTask.

Lemma uchar_inj (x y : ascii) : uchar x = uchar y -> x = y.
Proof.
  unfold uchar. intros H. apply N2Z.inj in H.
  rewrite <- (ascii_N_embedding x), <- (ascii_N_embedding y), H. reflexivity.
Qed.

Lemma uchar_0 (x : ascii) : uchar x = 0%Z -> is_nul x = true.
Proof.
  intros H. unfold is_nul. apply Ascii.eqb_eq. apply uchar_inj. exact H.
Qed.

(** [strcmp] returns 0 exactly on equal C strings. *)
Lemma strcmp_eq_0 (a b : string) : strcmp a b = 0%Z <-> c_str a = c_str b.
Proof.
  revert b. induction a as [|x a IH]; intros [|y b]; cbn [strcmp c_str].
  - tauto.
  - destruct (is_nul y) eqn:Ey.
    + apply Ascii.eqb_eq in Ey. subst y. split; reflexivity.
    + split; [|discriminate]. intros H.
      assert (Hy : uchar y = 0%Z) by lia. apply uchar_0 in Hy. congruence.
  - destruct (is_nul x) eqn:Ex.
    + apply Ascii.eqb_eq in Ex. subst x. split; reflexivity.
    + split; [|discriminate]. intros H.
      assert (Hx : uchar x = 0%Z) by lia. apply uchar_0 in Hx. congruence.
  - destruct (Ascii.eqb_spec x y) as [<- | Hxy].
    + destruct (is_nul x); [tauto|]. rewrite IH. split; [congruence|].
      intros H. inversion H. reflexivity.
    + split.
      * intros H. exfalso. apply Hxy, uchar_inj. lia.
      * destruct (is_nul x) eqn:Ex, (is_nul y) eqn:Ey; try discriminate.
        -- apply Ascii.eqb_eq in Ex, Ey. congruence.
        -- intros H. inversion H. contradiction.
Qed.

Lemma strcmp_eqb (buf lit : string) :
  c_str lit = lit ->
  (strcmp buf lit =? 0)%Z = String.eqb (c_str buf) lit.
Proof.
  intros Hlit.
  destruct (Z.eqb_spec (strcmp buf lit) 0) as [E | E];
    rewrite strcmp_eq_0, Hlit in E; symmetry.
  - apply String.eqb_eq, E.
  - apply String.eqb_neq, E.
Qed.

(** X10.  A turn of the recovery task that runs with the wake bit and the
    flag set completes, and its writes to the LEDs are decided by the
    result of the attribution alone: ten on/off pairs on STATUS_LED when
    the captured name is "test_user", ten on STATUS_LED_2 when it is
    "test_2_user", and none at all for any other name or when nothing was
    captured.  No turn drives both LEDs. *)
Theorem X10_recovery_action_follows_the_name
    (bits : Z) (report : list string) (m : machine) :
  Z.land bits RECOVERY_ACTIVE_BIT <> 0%Z ->
  g_watchdog_timeout_occurred m = true ->
  exists m' tr,
    recovery_task_woken bits report m = Done tt m' tr /\
    attribution_of m' = attribute report m /\
    filter is_gpio_event tr
    = if captured (attribute report m) then
        if String.eqb (name (attribute report m)) "test_user"
        then led_toggles STATUS_LED
        else if String.eqb (name (attribute report m)) "test_2_user"
             then led_toggles STATUS_LED_2
             else []
      else [].
Proof.
  intros Hbit Hflag. apply Z.eqb_neq in Hbit.
  rewrite recovery_task_woken_eq. cbv zeta. rewrite Hbit, Hflag. cbn [negb andb].
  eexists. eexists. split; [reflexivity|]. split; [reflexivity|].
  unfold attribute, attribution_of. cbn [captured name].
  generalize (feed report (reset_scratch m)). intros m1.
  unfold recovery_trace, recovery_actions.
  destruct (task_name_captured m1); [|reflexivity].
  rewrite !(strcmp_eqb (failed_task_name m1)) by reflexivity.
  destruct (String.eqb_spec (c_str (failed_task_name m1)) "test_user") as [E | E].
  - rewrite E. reflexivity.
  - destruct (String.eqb (c_str (failed_task_name m1)) "test_2_user");
      reflexivity.
Qed.

Lemma X10_recovery_action_follows_the_name_witness :
  exists m' tr,
    recovery_task_woken RECOVERY_ACTIVE_BIT [" -"; "test_2_user"; "(CPU 1)"]
      (set_g_watchdog_timeout_occurred true initial) = Done tt m' tr /\
    filter is_gpio_event tr = led_toggles STATUS_LED_2.
Proof.
  destruct (X10_recovery_action_follows_the_name RECOVERY_ACTIVE_BIT
              [" -"; "test_2_user"; "(CPU 1)"]
              (set_g_watchdog_timeout_occurred true initial))
    as (m' & tr & H & _ & Hg).
  - vm_compute. discriminate.
  - reflexivity.
  - exists m', tr. split; [exact H | exact Hg].
Defined.

End Dispatch.

(** ** Invariants of whole runs *)

Section Runs.

Import MultiTask.

Ltac unfold_program :=
  unfold run, app_main, init_gpio, init_watchdog, test_task_register,
    test_2_task_register, test_task_iteration, test_2_task_iteration,
    esp_task_wdt_isr_user_handler, xEventGroupSetBitsFromISR,
    esp_task_wdt_reset_user, ESP_LOGI, ESP_LOGW, ESP_LOGE, vTaskDelay_ms,
    gpio_set_level;
  cbv zeta.

(** The globals after a completed turn of the recovery task. *)
Lemma recovery_task_iteration_done (report : list string) (m m' : machine)
    (u : unit) (tr : trace) :
  recovery_task_iteration report m = Done u m' tr ->
  exists g,
    event_group m = Some g /\
    Z.land g RECOVERY_ACTIVE_BIT <> 0%Z /\
    let m1 := feed report
                (reset_scratch
                   (set_event_group (Some (Z.ldiff g RECOVERY_ACTIVE_BIT)) m)) in
    (m' = m1 \/ m' = set_g_watchdog_timeout_occurred false m1) /\
    event_group m' = Some (Z.ldiff g RECOVERY_ACTIVE_BIT) /\
    (g_watchdog_timeout_occurred m = true ->
     m' = set_g_watchdog_timeout_occurred false m1 /\ tr = recovery_trace m1).
Proof.
  rewrite recovery_task_iteration_eq.
  destruct (event_group m) as [g|] eqn:Heg; [|discriminate].
  destruct (Z.land g RECOVERY_ACTIVE_BIT =? 0)%Z eqn:Hbit; [discriminate|].
  rewrite recovery_task_woken_eq. cbv zeta. fields. rewrite Hbit.
  cbn [negb andb]. intros H. exists g. split; [reflexivity|].
  split; [apply Z.eqb_neq, Hbit|].
  destruct (feed_frame report
              (reset_scratch
                 (set_event_group (Some (Z.ldiff g RECOVERY_ACTIVE_BIT)) m)))
    as (Eeg & _).
  cbv zeta in Eeg. unfold reset_scratch in Eeg at 2. fields.
  destruct (g_watchdog_timeout_occurred m); inversion H; subst; fields.
  - split; [right; reflexivity|]. split; [exact Eeg|]. auto.
  - split; [left; reflexivity|]. split; [exact Eeg|]. discriminate.
Qed.

Lemma buffer_ok_set_flag (v : bool) (m : machine) :
  buffer_ok (set_g_watchdog_timeout_occurred v m) <-> buffer_ok m.
Proof. unfold buffer_ok. fields. tauto. Qed.

Lemma run_keeps_buffer (a : action) : keeps buffer_stays_ok (run a).
Proof.
  assert (Hrefl : forall m : machine, buffer_stays_ok m m)
    by (unfold buffer_stays_ok; auto).
  assert (Htrans : forall m1 m2 m3 : machine,
             buffer_stays_ok m1 m2 -> buffer_stays_ok m2 m3 ->
             buffer_stays_ok m1 m3)
    by (unfold buffer_stays_ok; auto).
  destruct a as [created err | woken | report | err h | err c | err h | err c].
  3: { intros m u m' tr Hrun [Hlen _]. cbn [run] in Hrun.
       destruct (recovery_task_iteration_done _ _ _ _ _ Hrun)
         as (g & _ & _ & Hm' & _).
       cbv zeta in Hm'.
       assert (Hok : buffer_ok
                       (feed report
                          (reset_scratch
                             (set_event_group
                                (Some (Z.ldiff g RECOVERY_ACTIVE_BIT)) m)))).
       { apply feed_buffer_ok, reset_scratch_buffer_ok. exact Hlen. }
       destruct Hm' as [-> | ->]; [exact Hok | apply buffer_ok_set_flag, Hok]. }
  all: unfold_program; keeps_steps; unfold buffer_stays_ok, buffer_ok;
    fields; auto.
Qed.

(** X11.  Whatever runs in the program and in whatever order, the buffer
    of the name keeps its 32 bytes and holds a terminated string: no code
    path writes outside it or leaves it without a terminator. *)
Theorem X11_buffer_stays_terminated (acts : list action) (m m' : machine) :
  buffer_ok m ->
  run_all acts m = Some m' ->
  buffer_ok m'.
Proof.
  intros Hok Hrun.
  eapply (run_all_invariant buffer_ok (fun _ => true));
    [| | exact Hok | exact Hrun].
  - intros a s u s' tr _ Hs Hstep. exact (run_keeps_buffer a s u s' tr Hstep Hs).
  - clear. induction acts; simpl; auto.
Qed.

Lemma X11_buffer_stays_terminated_witness :
  exists m',
    run_all [AppMain true ESP_OK; Isr true;
             RecoveryTask [" -"; "test_user"; "(CPU 0)"]] initial = Some m' /\
    buffer_ok m'.
Proof.
  eexists. split; [vm_compute; reflexivity|].
  eapply (X11_buffer_stays_terminated
            [AppMain true ESP_OK; Isr true;
             RecoveryTask [" -"; "test_user"; "(CPU 0)"]] initial).
  - split; [reflexivity | vm_compute; lia].
  - vm_compute. reflexivity.
Defined.

Lemma run_keeps_group_null (a : action) :
  is_app_main a = false -> keeps group_stays_null (run a).
Proof.
  assert (Hrefl : forall m : machine, group_stays_null m m)
    by (unfold group_stays_null; auto).
  assert (Htrans : forall m1 m2 m3 : machine,
             group_stays_null m1 m2 -> group_stays_null m2 m3 ->
             group_stays_null m1 m3)
    by (unfold group_stays_null; auto).
  destruct a as [created err | woken | report | err h | err c | err h | err c];
    try discriminate; intros _.
  2: { intros m u m' tr Hrun Hnull. cbn [run] in Hrun.
       rewrite recovery_task_iteration_eq, Hnull in Hrun. discriminate. }
  all: unfold_program; keeps_steps; unfold group_stays_null; fields; auto.
  intros ->. reflexivity.
Qed.

(** X12.  If the event group was never created (the allocation in
    [app_main] failed), nothing but [app_main] ever creates it: through
    any run of the other code paths the handle stays null, no turn of the
    recovery task completes (its wait stops on the assertion), and each
    expiry only sets the flag, which then stays set. *)
Theorem X12_missing_event_group_disables_recovery
    (acts : list action) (m m' : machine) :
  event_group m = None ->
  forallb (fun a => negb (is_app_main a)) acts = true ->
  run_all acts m = Some m' ->
  event_group m' = None /\
  existsb is_recovery acts = false /\
  (existsb is_isr acts = true -> g_watchdog_timeout_occurred m' = true).
Proof.
  revert m. induction acts as [|a acts IH]; intros m Hnull Hok Hrun.
  - simpl in Hrun. inversion Hrun; subst. repeat split; auto. discriminate.
  - simpl in Hok, Hrun. apply andb_true_iff in Hok as [Ha Hacts].
    apply negb_true_iff in Ha.
    destruct (run a m) as [u m1 tr| |] eqn:E; try discriminate.
    assert (Hnull1 : event_group m1 = None)
      by exact (run_keeps_group_null a Ha m u m1 tr E Hnull).
    assert (Hrec : is_recovery a = false).
    { destruct a; try reflexivity. cbn [run] in E.
      rewrite recovery_task_iteration_eq, Hnull in E. discriminate. }
    destruct (IH m1 Hnull1 Hacts Hrun) as (Hn & Hr & Hf).
    split; [exact Hn|]. split; [simpl; rewrite Hrec; exact Hr|].
    simpl. intros Hisr. destruct (is_isr a) eqn:Ea; [|apply Hf, Hisr].
    assert (Hflag1 : g_watchdog_timeout_occurred m1 = true).
    { destruct a; try discriminate. cbn [run] in E. rewrite isr_eq, Hnull in E.
      inversion E. reflexivity. }
    clear -Hflag1 Hrun Hr.
    eapply (run_all_invariant (fun s => g_watchdog_timeout_occurred s = true)
              (fun a => negb (is_recovery a)));
      [| | exact Hflag1 | exact Hrun].
    + intros a s u s' tr Ha Hs Hstep. apply negb_true_iff in Ha.
      exact (run_keeps_flag a Ha s u s' tr Hstep Hs).
    + clear -Hr. induction acts as [|a acts IH]; [reflexivity|].
      simpl in *. apply orb_false_iff in Hr as [-> Hr]. simpl. auto.
Qed.

Lemma X12_missing_event_group_disables_recovery_witness :
  exists m',
    run_all [TestTask ESP_OK 0; Isr true; Test2Task ESP_OK 0]
      (set_event_group None initial) = Some m' /\
    event_group m' = None /\
    g_watchdog_timeout_occurred m' = true.
Proof.
  eexists. split; [vm_compute; reflexivity|].
  destruct (X12_missing_event_group_disables_recovery
              [TestTask ESP_OK 0; Isr true; Test2Task ESP_OK 0]
              (set_event_group None initial) _ eq_refl eq_refl eq_refl)
    as (Hn & _ & Hf).
  split; [exact Hn | apply Hf; reflexivity].
Defined.

Lemma set_bits_again (g : Z) :
  set_bits (set_bits g RECOVERY_ACTIVE_BIT) RECOVERY_ACTIVE_BIT
  = set_bits g RECOVERY_ACTIVE_BIT.
Proof. unfold set_bits. rewrite <- Z.lor_assoc, Z.lor_diag. reflexivity. Qed.

Lemma ldiff_set_bits (g : Z) :
  Z.ldiff (set_bits g RECOVERY_ACTIVE_BIT) RECOVERY_ACTIVE_BIT
  = Z.ldiff g RECOVERY_ACTIVE_BIT.
Proof.
  unfold set_bits. rewrite !Z.ldiff_land, Z.land_lor_distr_l.
  rewrite Z.land_lnot_diag, Z.lor_0_r. reflexivity.
Qed.

Lemma land_set_bits (g : Z) :
  Z.land (set_bits g RECOVERY_ACTIVE_BIT) RECOVERY_ACTIVE_BIT <> 0%Z.
Proof.
  unfold set_bits. rewrite Z.land_lor_distr_l.
  intros H. apply Z.lor_eq_0_iff in H as [_ H]. discriminate H.
Qed.

Lemma isr_signals (woken : bool) (g : Z) (m : machine) :
  event_group m = Some g ->
  exists tr, run (Isr woken) m = Done tt (signalled g m) tr.
Proof.
  intros Heg. cbn [run]. rewrite isr_eq, Heg. eexists. reflexivity.
Qed.

Lemma isrs_change_nothing_more (wokens : list bool) (g : Z) (m : machine) :
  run_all (map Isr wokens) (signalled g m) = Some (signalled g m).
Proof.
  induction wokens as [|w wokens IH]; [reflexivity|].
  cbn [map run_all run]. rewrite isr_eq. unfold signalled at 1. fields.
  rewrite set_bits_again. exact IH.
Qed.

(** X14.  Expiries coalesce.  However often the interrupt handler runs
    before the recovery task gets to run, the globals are as after one
    run of it, and one turn of the recovery task answers them all: it
    completes, clears the flag, consumes the wake bit without touching the
    other bits of the event group, and logs one recovery.  The turn after
    that blocks. *)
Theorem X14_expiries_coalesce
    (woken : bool) (wokens : list bool) (report : list string)
    (g : Z) (m : machine) :
  event_group m = Some g ->
  exists m1 m2 tr,
    run_all (Isr woken :: map Isr wokens) m = Some m1 /\
    run_all [Isr woken] m = Some m1 /\
    run (RecoveryTask report) m1 = Done tt m2 tr /\
    g_watchdog_timeout_occurred m2 = false /\
    event_group m2 = Some (Z.ldiff g RECOVERY_ACTIVE_BIT) /\
    List.length (filter is_completion_log tr) = 1 /\
    forall report', run (RecoveryTask report') m2 = Blocked.
Proof.
  intros Heg. destruct (isr_signals woken g m Heg) as (tr1 & Hisr).
  assert (Heg1 : event_group (signalled g m) = Some (set_bits g RECOVERY_ACTIVE_BIT))
    by reflexivity.
  pose proof (recovery_task_iteration_recovers report (signalled g m) _ Heg1
                (land_set_bits g) eq_refl) as Hturn.
  cbv zeta in Hturn. rewrite ldiff_set_bits in Hturn.
  eexists. eexists. eexists.
  split; [cbn [run_all]; rewrite Hisr; apply isrs_change_nothing_more|].
  split; [cbn [run_all]; rewrite Hisr; reflexivity|].
  split; [exact Hturn|]. split; [reflexivity|].
  match goal with
  | |- context [feed report ?s] =>
      destruct (feed_frame report s) as (Eeg & _); cbv zeta in Eeg
  end.
  split; [fields; exact Eeg|]. split.
  - unfold recovery_trace, recovery_actions, diagnosis_trace.
    match goal with
    | |- context [task_name_captured ?s] =>
        destruct (task_name_captured s); [|reflexivity];
        destruct (strcmp (failed_task_name s) "test_user" =? 0)%Z;
        destruct (strcmp (failed_task_name s) "test_2_user" =? 0)%Z;
        reflexivity
    end.
  - intros report'. cbn [run]. rewrite recovery_task_iteration_eq. fields.
    rewrite Eeg. cbn [event_group set_event_group reset_scratch].
    unfold reset_scratch. fields. rewrite Z.land_ldiff. reflexivity.
Qed.

Lemma X14_expiries_coalesce_witness :
  exists m1 m2 tr,
    run_all [Isr true; Isr false; Isr true] (set_event_group (Some 6%Z) initial)
    = Some m1 /\
    run (RecoveryTask [" -"; "test_user"; "(CPU 0)"]) m1 = Done tt m2 tr /\
    event_group m2 = Some 6%Z /\
    run (RecoveryTask []) m2 = Blocked.
Proof.
  destruct (X14_expiries_coalesce true [false; true]
              [" -"; "test_user"; "(CPU 0)"] 6
              (set_event_group (Some 6%Z) initial) eq_refl)
    as (m1 & m2 & tr & H1 & _ & H2 & _ & H3 & _ & H4).
  exists m1, m2, tr. split; [exact H1|]. split; [exact H2|].
  split; [exact H3 | apply H4].
Defined.




End Runs.

(** ** Startup and the loop of [main.c] *)

Section Startup.

(** X15.  Expiries coalesce in [main.c] too: however often the handler
    runs before the recovery task does, one turn answers them all.  It
    clears the flag, consumes the wake bit and leaves the other bits of
    the group, blinks STATUS_LED ten times and logs one recovery, with no
    diagnosis; the turn after that blocks. *)
Theorem X15_main_expiries_coalesce
    (woken : bool) (wokens : list bool) (g : Z) (m : Main.machine) :
  Main.event_group m = Some g ->
  exists m1 m2 tr,
    Main.run_all (Main.Isr woken :: map Main.Isr wokens) m = Some m1 /\
    Main.run_all [Main.Isr woken] m = Some m1 /\
    Main.run Main.RecoveryTask m1 = Done tt m2 tr /\
    m2 = Main.set_event_group (Some (Z.ldiff g RECOVERY_ACTIVE_BIT))
           (Main.set_g_watchdog_timeout_occurred false m) /\
    filter is_gpio_event tr = led_toggles Main.STATUS_LED /\
    List.length (filter is_completion_log tr) = 1 /\
    existsb (fun e => match e with TaskWdtPrintTriggeredTasks => true | _ => false end) tr
    = false /\
    Main.run Main.RecoveryTask m2 = Blocked.
Proof.
  intros Heg.
  assert (Hisr : exists tr, Main.run (Main.Isr woken) m = Done tt (main_signalled g m) tr)
    by (cbn [Main.run]; rewrite main_isr_eq, Heg; eexists; reflexivity).
  destruct Hisr as (tr1 & Hisr).
  assert (Hmore : Main.run_all (map Main.Isr wokens) (main_signalled g m)
                  = Some (main_signalled g m)).
  { induction wokens as [|w wokens IH]; [reflexivity|].
    cbn [map Main.run_all Main.run]. rewrite main_isr_eq.
    unfold main_signalled at 1. fields. rewrite set_bits_again. exact IH. }
  exists (main_signalled g m).
  eexists. eexists.
  split; [cbn [Main.run_all]; rewrite Hisr; exact Hmore|].
  split; [cbn [Main.run_all]; rewrite Hisr; reflexivity|].
  split.
  { cbn [Main.run]. rewrite main_recovery_task_iteration_eq.
    unfold main_signalled. fields.
    pose proof (land_set_bits g) as Hbit. apply Z.eqb_neq in Hbit. rewrite Hbit.
    rewrite main_recovery_task_woken_eq. fields. rewrite Hbit. reflexivity. }
  split.
  { destruct m as [eg h fl]. unfold Main.set_g_watchdog_timeout_occurred,
      Main.set_event_group. fields. rewrite ldiff_set_bits. reflexivity. }
  split; [reflexivity|]. split; [reflexivity|]. split; [reflexivity|].
  cbn [Main.run]. rewrite main_recovery_task_iteration_eq. fields.
  rewrite ldiff_set_bits, Z.land_ldiff. reflexivity.
Qed.

Lemma X15_main_expiries_coalesce_witness :
  exists m1 m2 tr,
    Main.run_all [Main.Isr true; Main.Isr true]
      (Main.set_event_group (Some 0%Z) Main.initial) = Some m1 /\
    Main.run Main.RecoveryTask m1 = Done tt m2 tr /\
    Main.run Main.RecoveryTask m2 = Blocked.
Proof.
  destruct (X15_main_expiries_coalesce true [true] 0
              (Main.set_event_group (Some 0%Z) Main.initial) eq_refl)
    as (m1 & m2 & tr & H1 & _ & H2 & _ & _ & _ & _ & H3).
  exists m1, m2, tr. split; [exact H1|]. split; [exact H2 | exact H3].
Defined.





End Startup.
